(** * aah/log: levels, configuration, receivers and rotation

    A shallow embedding of the logging package [log] (file [log.go]): the
    level and format-flag tables, the factory [New] with the console and file
    receiver constructors, and, for the parts of the package that live in
    other files (pattern compiler, [Output], [Close], rotation, the
    level-tagged logging methods), a model that follows the specification. *)

From Stdlib Require Import ZArith String Ascii List Bool Lia.
From stdpp Require Import base option gmap strings list.

Local Open Scope string_scope.
Local Open Scope Z_scope.

(** ** Go primitives *)

(** Go's [error] values built by [errors.New] and [fmt.Errorf] are compared
    here by their message. *)
Definition error : Type := string.

Definition errors_New (msg : string) : error := msg.

(** [int] on a 64-bit platform: arithmetic wraps around modulo [2^64]. *)
Definition wrapInt (z : Z) : Z := (z + 2 ^ 63) mod 2 ^ 64 - 2 ^ 63.

Definition mulInt (a b : Z) : Z := wrapInt (a * b).

(** ASCII bytes and the ASCII part of [strings.ToUpper]. *)
Definition isASCIIbyte (c : ascii) : bool := (nat_of_ascii c <? 128)%nat.

Definition isLower (c : ascii) : bool :=
  ((97 <=? nat_of_ascii c) && (nat_of_ascii c <=? 122))%nat.

Definition upperByte (c : ascii) : ascii :=
  if isLower c then ascii_of_nat (nat_of_ascii c - 32) else c.

Fixpoint asciiToUpper (s : string) : string :=
  match s with
  | EmptyString => EmptyString
  | String c s' => String (upperByte c) (asciiToUpper s')
  end.

Fixpoint isASCII (s : string) : bool :=
  match s with
  | EmptyString => true
  | String c s' => isASCIIbyte c && isASCII s'
  end.

(** The ASCII white space of [unicode.IsSpace]: tab, line feed, vertical tab,
    form feed, carriage return and space. *)
Definition isSpaceByte (c : ascii) : bool :=
  let n := nat_of_ascii c in
  ((9 <=? n) && (n <=? 13) || (n =? 32))%nat.

Fixpoint onlySpaces (s : string) : bool :=
  match s with
  | EmptyString => true
  | String c s' => isSpaceByte c && onlySpaces s'
  end.

(** ** Levels and format flags ([log.go], lines 31-58) *)

(** [type Level uint8] *)
Definition Level : Type := Z.

Definition LevelError : Level := 0.
Definition LevelWarn : Level := 1.
Definition LevelInfo : Level := 2.
Definition LevelDebug : Level := 3.
Definition LevelTrace : Level := 4.
Definition LevelUnknown : Level := 5.

(** [type FmtFlag uint8] *)
Definition FmtFlag : Type := Z.

Definition FmtFlagLevel : FmtFlag := 0.
Definition FmtFlagTime : FmtFlag := 1.
Definition FmtFlagUTCTime : FmtFlag := 2.
Definition FmtFlagLongfile : FmtFlag := 3.
Definition FmtFlagShortfile : FmtFlag := 4.
Definition FmtFlagLine : FmtFlag := 5.
Definition FmtFlagMessage : FmtFlag := 6.
Definition FmtFlagCustom : FmtFlag := 7.
Definition FmtFlagUnknown : FmtFlag := 8.

(** ** Package variables ([log.go], lines 60-126) *)

Definition FmtFlags : gmap string FmtFlag :=
  <["level" := FmtFlagLevel]>
  (<["time" := FmtFlagTime]>
  (<["utctime" := FmtFlagUTCTime]>
  (<["longfile" := FmtFlagLongfile]>
  (<["shortfile" := FmtFlagShortfile]>
  (<["line" := FmtFlagLine]>
  (<["message" := FmtFlagMessage]>
  (<["custom" := FmtFlagCustom]> ∅))))))).

Definition FmtFlagNames : list string :=
  ["level"; "time"; "utctime"; "longfile"; "shortfile"; "line"; "message";
   "custom"].

Definition DefaultPattern : string :=
  "%time:2006-01-02 15:04:05.000 %level:-5 %custom:- %message".

Definition BackupTimeFormat : string := "2006-01-02-15-04-05.000".

Definition ErrFormatStringEmpty : error :=
  errors_New "log format string is empty".

Definition ErrWriterIsClosed : error := errors_New "log writer is closed".

Definition flagSeparator : ascii := "%"%char.
Definition flagValueSeparator : ascii := ":"%char.
Definition defaultFormat : string := "%v".

Definition levelNameToLevel : gmap string Level :=
  <["ERROR" := LevelError]>
  (<["WARN" := LevelWarn]>
  (<["INFO" := LevelInfo]>
  (<["DEBUG" := LevelDebug]>
  (<["TRACE" := LevelTrace]> ∅)))).

Definition levelToLevelName : gmap Level string :=
  <[LevelError := "ERROR"]>
  (<[LevelWarn := "WARN"]>
  (<[LevelInfo := "INFO"]>
  (<[LevelDebug := "DEBUG"]>
  (<[LevelTrace := "TRACE"]> ∅)))).

(** ANSI colour codes; [ESC] is byte 27. *)
Definition ESC : string := String (ascii_of_nat 27) EmptyString.

Definition resetColor : string := ESC ++ "[0m".

Definition levelToColor : list string :=
  [ESC ++ "[0;31m"; ESC ++ "[0;33m"; ESC ++ "[0;37m"; ESC ++ "[0;34m";
   ESC ++ "[0;35m"].

(** [func (level Level) String() string] *)
Definition Level_String (level : Level) : string :=
  match levelToLevelName !! level with
  | Some name => name
  | None => "Unknown"
  end.

(** ** The configuration collaborator

    [*config.Config] is observed only through its typed lookups: what
    [String(key)] and [Int(key)] find under a key. *)
Record Config : Type := mkConfig {
  cfg_strings : gmap string string;
  cfg_ints : gmap string Z
}.

Definition Config_String (cfg : Config) (key : string) : option string :=
  cfg_strings cfg !! key.

Definition StringDefault (cfg : Config) (key defaultValue : string) : string :=
  match Config_String cfg key with
  | Some v => v
  | None => defaultValue
  end.

Definition Config_Int (cfg : Config) (key : string) : option Z :=
  cfg_ints cfg !! key.

Definition IntDefault (cfg : Config) (key : string) (defaultValue : Z) : Z :=
  match Config_Int cfg key with
  | Some v => v
  | None => defaultValue
  end.

(** ** Data model *)

(** A broken-down wall-clock instant, as [time.Time] presents it through
    [Year()], [Month()], [Day()], [Hour()], [Minute()], [Second()] and
    [Nanosecond()]. *)
Record Time : Type := mkTime {
  t_year : Z;
  t_month : Z;
  t_day : Z;
  t_hour : Z;
  t_minute : Z;
  t_second : Z;
  t_nanosecond : Z
}.

(** [type Entry struct] ([log.go], lines 130-137); the opaque [Values] are
    kept by their printed form. *)
Record Entry : Type := mkEntry {
  e_Level : Level;
  e_Time : Time;
  e_Format : string;
  e_Values : list string;
  e_File : string;
  e_Line : Z
}.

(** Modelled from the spec: the struct [FlagPart] is declared outside
    [log.go]; section 3 describes a directive as a kind together with an
    auxiliary format string. *)
Record FlagPart : Type := mkFlagPart {
  fp_Flag : FmtFlag;
  fp_Format : string
}.

(** Modelled from the spec: [ReceiverStats] is declared outside [log.go];
    section 3 gives it the two counters. *)
Record ReceiverStats : Type := mkStats {
  LinesWritten : Z;
  BytesWritten : Z
}.

Definition zeroStats : ReceiverStats := mkStats 0 0.

(** The [io.Writer] held in [out]: the standard error stream or a file,
    named by its path. *)
Inductive Writer : Type :=
  | os_Stderr
  | os_File (path : string).

(** The formatter stored in a receiver turns the compiled flags and an entry
    into the rendered line. *)
Definition FormatterFunc : Type := list FlagPart -> Entry -> string.

(** The [Receiver] struct.  The first fourteen fields are the ones [log.go]
    assigns; the struct itself is declared outside [log.go], and the last
    four fields are modelled from the spec (section 3, receiver state of the
    file variant: size, line count, open day, closed flag). *)
Record Receiver : Type := mkReceiver {
  r_Config : Config;
  r_Type : string;
  r_Flags : list FlagPart;
  r_Format : FormatterFunc;
  r_level : Level;
  r_out : option Writer;
  r_stats : ReceiverStats;
  r_isFileInfo : bool;
  r_isLineInfo : bool;
  r_isUTC : bool;
  r_isColor : bool;
  r_rotate : string;
  r_maxLines : Z;
  r_maxSize : Z;
  r_currentFileSize : Z;
  r_currentLineCount : Z;
  r_currentOpenDay : Z;
  r_closed : bool
}.

Definition set_rotate (v : string) (r : Receiver) : Receiver :=
  mkReceiver (r_Config r) (r_Type r) (r_Flags r) (r_Format r) (r_level r)
    (r_out r) (r_stats r) (r_isFileInfo r) (r_isLineInfo r) (r_isUTC r)
    (r_isColor r) v (r_maxLines r) (r_maxSize r) (r_currentFileSize r)
    (r_currentLineCount r) (r_currentOpenDay r) (r_closed r).

Definition set_maxLines (v : Z) (r : Receiver) : Receiver :=
  mkReceiver (r_Config r) (r_Type r) (r_Flags r) (r_Format r) (r_level r)
    (r_out r) (r_stats r) (r_isFileInfo r) (r_isLineInfo r) (r_isUTC r)
    (r_isColor r) (r_rotate r) v (r_maxSize r) (r_currentFileSize r)
    (r_currentLineCount r) (r_currentOpenDay r) (r_closed r).

Definition set_maxSize (v : Z) (r : Receiver) : Receiver :=
  mkReceiver (r_Config r) (r_Type r) (r_Flags r) (r_Format r) (r_level r)
    (r_out r) (r_stats r) (r_isFileInfo r) (r_isLineInfo r) (r_isUTC r)
    (r_isColor r) (r_rotate r) (r_maxLines r) v (r_currentFileSize r)
    (r_currentLineCount r) (r_currentOpenDay r) (r_closed r).

Definition set_stats (v : ReceiverStats) (r : Receiver) : Receiver :=
  mkReceiver (r_Config r) (r_Type r) (r_Flags r) (r_Format r) (r_level r)
    (r_out r) v (r_isFileInfo r) (r_isLineInfo r) (r_isUTC r)
    (r_isColor r) (r_rotate r) (r_maxLines r) (r_maxSize r)
    (r_currentFileSize r) (r_currentLineCount r) (r_currentOpenDay r)
    (r_closed r).

Definition set_counters (size lines day : Z) (r : Receiver) : Receiver :=
  mkReceiver (r_Config r) (r_Type r) (r_Flags r) (r_Format r) (r_level r)
    (r_out r) (r_stats r) (r_isFileInfo r) (r_isLineInfo r) (r_isUTC r)
    (r_isColor r) (r_rotate r) (r_maxLines r) (r_maxSize r) size lines day
    (r_closed r).

Definition set_closed (v : bool) (r : Receiver) : Receiver :=
  mkReceiver (r_Config r) (r_Type r) (r_Flags r) (r_Format r) (r_level r)
    (r_out r) (r_stats r) (r_isFileInfo r) (r_isLineInfo r) (r_isUTC r)
    (r_isColor r) (r_rotate r) (r_maxLines r) (r_maxSize r)
    (r_currentFileSize r) (r_currentLineCount r) (r_currentOpenDay r) v.

(** The world a receiver acts on: the clock, what has been written to the
    standard error stream (oldest first), the files by path with their
    contents, and the paths that currently have an open handle. *)
Record World : Type := mkWorld {
  now : Time;
  stderr : list string;
  files : gmap string string;
  openFiles : gset string
}.

(** A Go result pair [(T, error)], either component possibly [nil]. *)
Definition result (T : Type) : Type := (option T * option error)%type.

Definition failWith {T : Type} (err : error) : result T := (None, Some err).

(** ** Text helpers *)

(** [strings.Split] with a one-byte separator. *)
Fixpoint split (sep : ascii) (s : string) : list string :=
  match s with
  | EmptyString => [EmptyString]
  | String c s' =>
      if Ascii.eqb c sep then EmptyString :: split sep s'
      else match split sep s' with
           | piece :: rest => String c piece :: rest
           | [] => [String c EmptyString]
           end
  end.

(** The text before the first separator, and the text after it when the
    separator occurs. *)
Fixpoint cut (sep : ascii) (s : string) : string * option string :=
  match s with
  | EmptyString => (EmptyString, None)
  | String c s' =>
      if Ascii.eqb c sep then (EmptyString, Some s')
      else let '(before, after) := cut sep s' in (String c before, after)
  end.

Definition byteLen (s : string) : Z := Z.of_nat (String.length s).

(** ** The pattern compiler *)

Module PatternCompiler.

(** Modelled from the spec: the error of an unknown flag name; the function
    that raises it is outside [log.go], section 4.1 calls it the
    "unrecognized format flag" error. *)
Definition ErrUnrecognizedFlag (name : string) : error :=
  "unrecognized format flag: " ++ name.

(** The name a marker introduces: the segment up to its value separator. *)
Definition flagName (segment : string) : string :=
  fst (cut flagValueSeparator segment).

(** Modelled from the spec: one marker, [name] or [name:auxiliary], resolved
    against the table [FmtFlags]; the [message] directive gets the default
    rendering form when no auxiliary is given (section 4.1). *)
Definition compileFlag (segment : string) : FlagPart + error :=
  let '(name, aux) := cut flagValueSeparator segment in
  match FmtFlags !! name with
  | None => inr (ErrUnrecognizedFlag name)
  | Some flag =>
      inl (mkFlagPart flag
             (match aux with
              | Some a => a
              | None => if Z.eqb flag FmtFlagMessage then defaultFormat
                        else EmptyString
              end))
  end.

Fixpoint compileFlags (segments : list string) : list FlagPart + error :=
  match segments with
  | [] => inl []
  | seg :: rest =>
      match compileFlag seg with
      | inr err => inr err
      | inl part =>
          match compileFlags rest with
          | inr err => inr err
          | inl parts => inl (part :: parts)
          end
      end
  end.

(** Text outside markers is a literal directive. *)
Definition literal (text : string) : list FlagPart :=
  if String.eqb text EmptyString then []
  else [mkFlagPart FmtFlagCustom text].

(** The marker segments of a pattern: the pieces that follow each flag
    separator. *)
Definition markers (pattern : string) : list string :=
  tail (split flagSeparator pattern).

Definition flagNames (pattern : string) : list string :=
  map flagName (markers pattern).

(** Modelled from the spec: [parseFlag], the pattern compiler, is defined
    outside [log.go].  Section 4.1: the pattern is scanned for the flag
    marker; text outside markers becomes a literal directive; each marker
    introduces [name] or [name:auxiliary], resolved against the fixed
    table; an unknown name fails, and so does the empty pattern. *)
Definition parseFlag (pattern : string) : list FlagPart + error :=
  if String.eqb pattern EmptyString then inr ErrFormatStringEmpty
  else
    match compileFlags (markers pattern) with
    | inr err => inr err
    | inl parts =>
        inl (literal (hd EmptyString (split flagSeparator pattern))
               ++ parts)%list
    end.

End PatternCompiler.

(** ** Time layouts *)

Module GoTime.

(** Decimal digits of a natural number, most significant first. *)
Fixpoint digitsFuel (fuel : nat) (n : Z) (acc : string) : string :=
  match fuel with
  | O => acc
  | S fuel' =>
      let acc' := String (ascii_of_nat (48 + Z.to_nat (n mod 10))) acc in
      if n <? 10 then acc' else digitsFuel fuel' (n / 10) acc'
  end.

Definition digits (n : Z) : string := digitsFuel 20 n EmptyString.

Fixpoint zeros (k : nat) : string :=
  match k with
  | O => EmptyString
  | S k' => String "0"%char (zeros k')
  end.

(** [appendInt(x, width)] of package [time], for [0 <= x]: the decimal
    digits, zero-padded on the left to at least [width]. *)
Definition appendInt (x : Z) (width : nat) : string :=
  let d := digits x in
  zeros (width - String.length d) ++ d.

(** [formatNano] with a fixed number [n] of digits ([1 <= n <= 9]): the
    first [n] digits of the nine-digit nanosecond. *)
Definition fracSecond (nanosec : Z) (n : nat) : string :=
  appendInt (nanosec / 10 ^ Z.of_nat (9 - n)) n.

(** The number of leading ['0'] bytes and the rest. *)
Fixpoint takeZeros (s : string) : nat * string :=
  match s with
  | String "0"%char s' => let '(k, rest) := takeZeros s' in (S k, rest)
  | _ => (O, s)
  end.

Definition startsWithDigit (s : string) : bool :=
  match s with
  | String c _ => ((48 <=? nat_of_ascii c) && (nat_of_ascii c <=? 57))%nat
  | EmptyString => false
  end.

Fixpoint dropBytes (k : nat) (s : string) : string :=
  match k, s with
  | S k', String _ s' => dropBytes k' s'
  | _, _ => s
  end.

(** [Time.Format] for the layout elements ["2006"], ["01"], ["02"], ["15"],
    ["04"], ["05"] and a fraction [".000"] (a dot, zeros, and no digit
    after them); every other byte is copied.  The remaining elements of
    Go's layouts (month and day names, two-digit years, unpadded fields,
    twelve-hour clock, zones) do not occur in the layouts of this
    package's file names and are not interpreted. *)
Fixpoint formatFuel (fuel : nat) (layout : string) (t : Time) : string :=
  match fuel with
  | O => EmptyString
  | S fuel' =>
      match layout with
      | EmptyString => EmptyString
      | String c rest =>
          if String.prefix "2006" layout then
            appendInt (t_year t) 4 ++ formatFuel fuel' (dropBytes 4 layout) t
          else if String.prefix "01" layout then
            appendInt (t_month t) 2 ++ formatFuel fuel' (dropBytes 2 layout) t
          else if String.prefix "02" layout then
            appendInt (t_day t) 2 ++ formatFuel fuel' (dropBytes 2 layout) t
          else if String.prefix "15" layout then
            appendInt (t_hour t) 2 ++ formatFuel fuel' (dropBytes 2 layout) t
          else if String.prefix "04" layout then
            appendInt (t_minute t) 2
              ++ formatFuel fuel' (dropBytes 2 layout) t
          else if String.prefix "05" layout then
            appendInt (t_second t) 2
              ++ formatFuel fuel' (dropBytes 2 layout) t
          else
            let '(k, after) := takeZeros rest in
            if Ascii.eqb c "."%char && (0 <? k)%nat
               && negb (startsWithDigit after)
            then String "."%char (fracSecond (t_nanosecond t) k)
                   ++ formatFuel fuel' after t
            else String c (formatFuel fuel' rest t)
      end
  end.

(** Every step consumes at least one byte of the layout, so its length is
    enough fuel. *)
Definition Format (t : Time) (layout : string) : string :=
  formatFuel (String.length layout) layout t.

(** A calendar instant with a year of at most four digits. *)
Definition wellFormed (t : Time) : Prop :=
  0 <= t_year t <= 9999 /\ 1 <= t_month t <= 12 /\ 1 <= t_day t <= 31 /\
  0 <= t_hour t <= 23 /\ 0 <= t_minute t <= 59 /\ 0 <= t_second t <= 59 /\
  0 <= t_nanosecond t <= 999999999.

End GoTime.

(** ** Caller information ([log.go], lines 236-244)

    [runtime.Caller] answers with a file and a line, or not at all. *)
Definition fetchCallerInfo (caller : option (string * Z)) : string * Z :=
  match caller with
  | Some (file, line) => (file, line)
  | None => ("???", 0)
  end.

(** ** Receivers at run time *)

Module Runtime.

(** Modelled from the spec: the error a failing sink returns (section 7,
    runtime write errors); the write path is outside [log.go]. *)
Definition ErrWrite : error := errors_New "write failed".

Definition colorOf (level : Level) : string :=
  nth (Z.to_nat level) levelToColor EmptyString.

Definition withStderr (w : World) (chunks : list string) : World :=
  mkWorld (now w) chunks (files w) (openFiles w).

Definition withFiles (w : World) (fs : gmap string string)
    (opened : gset string) : World :=
  mkWorld (now w) (stderr w) fs opened.

Definition contents (w : World) (path : string) : string :=
  match files w !! path with
  | Some text => text
  | None => EmptyString
  end.

(** Modelled from the spec: rendering, outside [log.go].  Section 4.4: the
    entry is rendered through the compiled directives and a line
    terminator follows. *)
Definition render (r : Receiver) (e : Entry) : string :=
  r_Format r (r_Flags r) e.

Definition lineTerminator : string := String (ascii_of_nat 10) EmptyString.

(** Modelled from the spec: the bytes sent to the sink.  Section 4.4.1:
    colour codes go before and after the rendered line, by the entry's
    level, when the receiver's colour flag is set. *)
Definition decorate (r : Receiver) (e : Entry) : string :=
  if r_isColor r
  then colorOf (e_Level e) ++ render r e ++ resetColor ++ lineTerminator
  else render r e ++ lineTerminator.

(** A write reaches the standard error stream, or a file that has an open
    handle; anything else is a failed write. *)
Definition writeSink (out : option Writer) (bytes : string) (w : World)
    : option World :=
  match out with
  | Some os_Stderr => Some (withStderr w (stderr w ++ [bytes])%list)
  | Some (os_File path) =>
      if decide (path ∈ openFiles w)
      then Some (withFiles w (<[path := contents w path ++ bytes]> (files w))
                   (openFiles w))
      else None
  | None => None
  end.

(** Modelled from the spec: the name a rotated file is archived under,
    section 4.4.2: a timestamped suffix is appended to the base name.  The
    layout of the suffix is the package's [BackupTimeFormat]. *)
Definition backupSuffix (t : Time) : string :=
  GoTime.Format t BackupTimeFormat.

Definition backupFileName (base : string) (t : Time) : string :=
  base ++ backupSuffix t.

Definition closeFile (path : string) (w : World) : World :=
  withFiles w (files w) (openFiles w ∖ {[path]}).

Definition renameFile (from to : string) (w : World) : World :=
  withFiles w (<[to := contents w from]> (delete from (files w)))
    (openFiles w).

Definition openFresh (path : string) (w : World) : World :=
  withFiles w (<[path := EmptyString]> (files w)) ({[path]} ∪ openFiles w).

(** Modelled from the spec: the rotation test of section 4.4.2, made before
    each write: [daily] compares the calendar day with the open day,
    [size] asks whether the next line would pass the threshold, [lines]
    whether the configured number of lines has been written; any other
    mode never rotates. *)
Definition needsRotate (r : Receiver) (line : string) (w : World) : bool :=
  if String.eqb (r_rotate r) "daily" then
    negb (t_day (now w) =? r_currentOpenDay r)
  else if String.eqb (r_rotate r) "size" then
    r_maxSize r <? r_currentFileSize r + byteLen line
  else if String.eqb (r_rotate r) "lines" then
    (0 <? r_maxLines r) && (r_maxLines r <=? r_currentLineCount r)
  else false.

(** Modelled from the spec: rotation, section 4.4.2: the current file is
    closed and renamed, a fresh file is opened at the original path, and
    the size, line and day counters start again; the statistics are kept. *)
Definition rotateFile (r : Receiver) (w : World) : World * Receiver :=
  match r_out r with
  | Some (os_File path) =>
      (openFresh path
         (renameFile path (backupFileName path (now w)) (closeFile path w)),
       set_counters 0 0 (t_day (now w)) r)
  | _ => (w, r)
  end.

Definition countWrite (n : Z) (r : Receiver) : Receiver :=
  set_stats
    (mkStats (LinesWritten (r_stats r) + 1) (BytesWritten (r_stats r) + n))
    (set_counters (r_currentFileSize r + n) (r_currentLineCount r + 1)
       (r_currentOpenDay r) r).

(** Modelled from the spec: [Output], section 4.4.  A closed receiver
    answers with the closed-writer error before anything else; otherwise
    rotation is evaluated, the line is written, and on success the
    counters move by one line and by the length of the rendered line. *)
Definition Output (r : Receiver) (e : Entry) (w : World)
    : World * Receiver * option error :=
  if r_closed r then (w, r, Some ErrWriterIsClosed)
  else
    let line := render r e ++ lineTerminator in
    let '(w1, r1) :=
      if needsRotate r line w then rotateFile r w else (w, r) in
    match writeSink (r_out r1) (decorate r1 e) w1 with
    | None => (w1, r1, Some ErrWrite)
    | Some w2 => (w2, countWrite (byteLen line) r1, None)
    end.

(** Modelled from the spec: [Close], sections 4.3 and 5: the sink is
    closed and the flag set; closing twice changes nothing. *)
Definition Close (r : Receiver) (w : World) : World * Receiver :=
  if r_closed r then (w, r)
  else
    (match r_out r with
     | Some (os_File path) => closeFile path w
     | _ => w
     end,
     set_closed true r).

Definition Closed (r : Receiver) : bool := r_closed r.

Definition Stats (r : Receiver) : ReceiverStats := r_stats r.

(** Modelled from the spec: the entry a level-tagged method builds,
    section 4.3: the caller's location is looked up only when the pattern
    has a file or line directive. *)
Definition newEntry (r : Receiver) (level : Level) (format : string)
    (values : list string) (caller : option (string * Z)) (w : World)
    : Entry :=
  let '(file, line) :=
    if r_isFileInfo r || r_isLineInfo r then fetchCallerInfo caller
    else (EmptyString, 0) in
  mkEntry level (now w) format values file line.

(** Modelled from the spec: the level-tagged methods of the facade,
    section 4.3: the entry goes to the receiver only when its level is at
    most the threshold. *)
Definition logAt (level : Level) (r : Receiver) (format : string)
    (values : list string) (caller : option (string * Z)) (w : World)
    : World * Receiver * option error :=
  if level <=? r_level r
  then Output r (newEntry r level format values caller w) w
  else (w, r, None).

Definition Error := logAt LevelError.
Definition Warn := logAt LevelWarn.
Definition Info := logAt LevelInfo.
Definition Debug := logAt LevelDebug.
Definition Trace := logAt LevelTrace.

(** What a client may do with a receiver. *)
Inductive Call : Type :=
  | CallOutput (e : Entry)
  | CallLog (level : Level) (format : string) (values : list string)
      (caller : option (string * Z))
  | CallClose
  | Tick (t : Time).

Definition step (c : Call) (r : Receiver) (w : World)
    : World * Receiver * option error :=
  match c with
  | CallOutput e => Output r e w
  | CallLog level format values caller =>
      logAt level r format values caller w
  | CallClose => let '(w', r') := Close r w in (w', r', None)
  | Tick t => (mkWorld t (stderr w) (files w) (openFiles w), r, None)
  end.

(** A run of calls, with the answer of each. *)
Fixpoint run (calls : list Call) (r : Receiver) (w : World)
    : World * Receiver * list (option error) :=
  match calls with
  | [] => (w, r, [])
  | c :: rest =>
      let '(w1, r1, err) := step c r w in
      let '(w2, r2, errs) := run rest r1 w1 in
      (w2, r2, err :: errs)
  end.

End Runtime.

(** What a closed receiver answers to a call. *)
Definition closedAnswer (r : Receiver) (c : Runtime.Call) : option error :=
  match c with
  | Runtime.CallOutput _ => Some ErrWriterIsClosed
  | Runtime.CallLog level _ _ _ =>
      if level <=? r_level r then Some ErrWriterIsClosed else None
  | Runtime.CallClose => None
  | Runtime.Tick _ => None
  end.

(** ** Stand-ins for the collaborators

    Small concrete collaborators, used to run the constructors on examples. *)

Definition consoleConfig : Config :=
  mkConfig {["receiver" := "CONSOLE"]} ∅.

Definition fileConfig : Config :=
  mkConfig {["receiver" := "file"]} ∅.

Definition fileConfigSizeMode : Config :=
  mkConfig (<["receiver" := "FILE"]> {["rotate.mode" := "size"]}) ∅.

Definition fileConfigAtCap : Config :=
  mkConfig (<["receiver" := "FILE"]> {["rotate.mode" := "size"]})
    {["rotate.size" := 2048]}.

Definition fileConfigOverCap : Config :=
  mkConfig (<["receiver" := "FILE"]> {["rotate.mode" := "lines"]})
    {["rotate.size" := 4096]}.

Definition noReceiverConfig : Config :=
  mkConfig {["level" := "INFO"]} ∅.

Definition syslogConfig : Config :=
  mkConfig {["receiver" := "SYSLOG"]} ∅.

Definition loudConfig : Config :=
  mkConfig (<["receiver" := "CONSOLE"]> {["level" := "LOUD"]}) ∅.

Definition badPatternConfig : Config :=
  mkConfig (<["receiver" := "CONSOLE"]> {["pattern" := "%when"]}) ∅.

(** A parser that knows a handful of configuration texts. *)
Definition sampleConfigs : list (string * Config) :=
  [("receiver = CONSOLE", consoleConfig);
   ("receiver = file", fileConfig);
   ("receiver = FILE; rotate.mode = size", fileConfigSizeMode);
   ("receiver = FILE; rotate.mode = size; rotate.size = 2048",
    fileConfigAtCap);
   ("receiver = FILE; rotate.mode = lines; rotate.size = 4096",
    fileConfigOverCap);
   ("level = INFO", noReceiverConfig);
   ("receiver = SYSLOG", syslogConfig);
   ("receiver = CONSOLE; level = LOUD", loudConfig);
   ("receiver = CONSOLE; pattern = %when", badPatternConfig)].

Fixpoint assoc (key : string) (table : list (string * Config))
    : option Config :=
  match table with
  | [] => None
  | (k, v) :: rest => if String.eqb key k then Some v else assoc key rest
  end.

Definition sampleParseString (text : string) : Config + error :=
  match assoc text sampleConfigs with
  | Some cfg => inl cfg
  | None => inr (errors_New "syntax error")
  end.

Definition sampleIsFmtFlagExists (flags : list FlagPart) (flag : FmtFlag)
    : bool :=
  existsb (fun part => fp_Flag part =? flag) flags.

Definition sampleIsFileFlagExists (flags : list FlagPart) : bool :=
  sampleIsFmtFlagExists flags FmtFlagShortfile
  || sampleIsFmtFlagExists flags FmtFlagLongfile.

Definition sampleFormatter : FormatterFunc :=
  fun flags e => e_Format e.

Definition sampleLogFile : string := "aah.log".

(** Opening succeeds unless the log file is a directory-like path that is
    already taken by an open handle. *)
Definition sampleOpenFile (r : Receiver) (w : World)
    : World * Receiver * option error :=
  if decide (sampleLogFile ∈ openFiles w)
  then (w, r, Some (errors_New "open aah.log: busy"))
  else
    (Runtime.withFiles w
       (<[sampleLogFile := Runtime.contents w sampleLogFile]> (files w))
       ({[sampleLogFile]} ∪ openFiles w),
     mkReceiver (r_Config r) (r_Type r) (r_Flags r) (r_Format r) (r_level r)
       (Some (os_File sampleLogFile)) (r_stats r) (r_isFileInfo r)
       (r_isLineInfo r) (r_isUTC r) (r_isColor r) (r_rotate r)
       (r_maxLines r) (r_maxSize r)
       (byteLen (Runtime.contents w sampleLogFile)) 0 (r_currentOpenDay r)
       (r_closed r),
     None).

Definition sampleSetOpenDay (r : Receiver) (w : World) : Receiver :=
  set_counters (r_currentFileSize r) (r_currentLineCount r) (t_day (now w)) r.

Definition sampleTime : Time := mkTime 2016 7 3 19 22 11 504000000.

Definition sampleWorld : World := mkWorld sampleTime [] ∅ ∅.

Definition busyWorld : World := mkWorld sampleTime [] ∅ {[sampleLogFile]}.

Definition sampleEntry : Entry :=
  mkEntry LevelInfo sampleTime "Welcome to aah logger" [] EmptyString 0.

(** A file receiver in [daily] mode whose file was opened the day before
    [sampleTime], and a world where that file holds one earlier line. *)
Definition sampleFileReceiver : Receiver :=
  mkReceiver (mkConfig {["receiver" := "FILE"]} ∅) "FILE" [] sampleFormatter
    LevelDebug (Some (os_File sampleLogFile)) (mkStats 1 6) false false false
    false "daily" 0 0 6 1 2 false.

Definition yesterdaysWorld : World :=
  mkWorld sampleTime [] {[sampleLogFile := "hello" ++ Runtime.lineTerminator]}
    {[sampleLogFile]}.

(** The suffix as the specification words it: year, month, day, hour,
    minute, second and milliseconds, all joined by hyphens. *)
Definition specHyphenJoinedSuffix (t : Time) : string :=
  GoTime.appendInt (t_year t) 4 ++ "-" ++ GoTime.appendInt (t_month t) 2
  ++ "-" ++ GoTime.appendInt (t_day t) 2 ++ "-"
  ++ GoTime.appendInt (t_hour t) 2 ++ "-" ++ GoTime.appendInt (t_minute t) 2
  ++ "-" ++ GoTime.appendInt (t_second t) 2 ++ "-"
  ++ GoTime.appendInt (t_nanosecond t / 1000000) 3.

(** The suffix with the milliseconds after a dot. *)
Definition dottedSuffix (t : Time) : string :=
  GoTime.appendInt (t_year t) 4 ++ "-" ++ GoTime.appendInt (t_month t) 2
  ++ "-" ++ GoTime.appendInt (t_day t) 2 ++ "-"
  ++ GoTime.appendInt (t_hour t) 2 ++ "-" ++ GoTime.appendInt (t_minute t) 2
  ++ "-" ++ GoTime.appendInt (t_second t) 2 ++ "."
  ++ GoTime.appendInt (t_nanosecond t / 1000000) 3.

(** ** Construction ([log.go], lines 170-299) *)

(** What [log.go] calls but does not define: the emptiness test of the
    essentials library, [strings.ToUpper], the configuration parser, the
    pattern compiler, the default formatter, the two flag tests, the two
    receiver methods used while a file receiver is built, [runtime.GOOS],
    and whether [*Receiver] has the method set of [Logger], which decides
    the type assertion at the end of [New]. *)
Class Host : Type := mkHost {
  StrIsEmpty : string -> bool;
  ToUpper : string -> string;
  ParseString : string -> Config + error;
  parseFlag : string -> list FlagPart + error;
  DefaultFormatter : FormatterFunc;
  isFileFlagExists : list FlagPart -> bool;
  isFmtFlagExists : list FlagPart -> FmtFlag -> bool;
  openFile : Receiver -> World -> World * Receiver * option error;
  setOpenDay : Receiver -> World -> Receiver;
  GOOS : string;
  receiverIsLogger : bool
}.

Section Construction.

Context `{host : Host}.

(** [func levelByName(name string) Level] *)
Definition levelByName (name : string) : Level :=
  match levelNameToLevel !! ToUpper name with
  | Some level => level
  | None => LevelUnknown
  end.

(** [func newConsoleReceiver] *)
Definition newConsoleReceiver (cfg : Config) (receiverType : string)
    (level : Level) (flags : list FlagPart) : result Receiver :=
  (Some (mkReceiver cfg receiverType flags DefaultFormatter level
           (Some os_Stderr) zeroStats (isFileFlagExists flags)
           (isFmtFlagExists flags FmtFlagLine) false
           (negb (String.eqb GOOS "windows"))
           EmptyString 0 0 0 0 0 false),
   None).

Definition ErrMaxFileSize : error :=
  errors_New "maximum 2GB file size supported for rotation".

(** The receiver literal [newFileReceiver] builds before it opens the
    file. *)
Definition fileReceiverLiteral (cfg : Config) (receiverType : string)
    (level : Level) (flags : list FlagPart) : Receiver :=
  mkReceiver cfg receiverType flags DefaultFormatter level None
    zeroStats (isFileFlagExists flags)
    (isFmtFlagExists flags FmtFlagLine)
    (isFmtFlagExists flags FmtFlagUTCTime) false
    EmptyString 0 0 0 0 0 false.

(** [func newFileReceiver] *)
Definition newFileReceiver (cfg : Config) (receiverType : string)
    (level : Level) (flags : list FlagPart) (w : World)
    : World * result Receiver :=
  let maxSize := IntDefault cfg "rotate.size" 100 in
  if 2048 <? maxSize then (w, failWith ErrMaxFileSize)
  else
    let receiver := fileReceiverLiteral cfg receiverType level flags in
    let '(w1, receiver, err) := openFile receiver w in
    match err with
    | Some e => (w1, failWith e)
    | None =>
        let receiver :=
          set_rotate (StringDefault cfg "rotate.mode" "daily") receiver in
        let receiver :=
          if String.eqb (r_rotate receiver) "daily" then
            setOpenDay receiver w1
          else if String.eqb (r_rotate receiver) "lines" then
            set_maxLines (IntDefault cfg "rotate.lines" 0) receiver
          else if String.eqb (r_rotate receiver) "size" then
            set_maxSize (mulInt (mulInt maxSize 1024) 1024) receiver
          else receiver in
        (w1, (Some receiver, None))
    end.

(** [func New(configStr string) (Logger, error)] *)
Definition New (configStr : string) (w : World) : World * result Receiver :=
  if StrIsEmpty configStr
  then (w, failWith (errors_New "logger config is empty"))
  else
    match ParseString configStr with
    | inr err => (w, failWith err)
    | inl cfg =>
        match Config_String cfg "receiver" with
        | None =>
            (w, failWith (errors_New "receiver configuration is required"))
        | Some receiverType =>
            let receiverType := ToUpper receiverType in
            let levelName := StringDefault cfg "level" "DEBUG" in
            let level := levelByName levelName in
            if level =? LevelUnknown
            then (w, failWith ("unrecognized log level: " ++ levelName))
            else
              let pattern := StringDefault cfg "pattern" DefaultPattern in
              match parseFlag pattern with
              | inr err => (w, failWith err)
              | inl flags =>
                  let built :=
                    if String.eqb receiverType "CONSOLE" then
                      Some (w, newConsoleReceiver cfg receiverType level
                                 flags)
                    else if String.eqb receiverType "FILE" then
                      Some (newFileReceiver cfg receiverType level flags w)
                    else None in
                  match built with
                  | None => (w, failWith (errors_New "unsupported receiver"))
                  | Some (w1, (alogger, Some err)) => (w1, failWith err)
                  | Some (w1, (alogger, None)) =>
                      if receiverIsLogger then (w1, (alogger, None))
                      else (w1, failWith
                                  (errors_New "unable to create logger"))
                  end
              end
        end
    end.

(** The four ways a parsed configuration is refused. *)
Definition refused (cfg : Config) : Prop :=
  Config_String cfg "receiver" = None
  \/ (exists receiverType,
        Config_String cfg "receiver" = Some receiverType
        /\ ToUpper receiverType <> "CONSOLE"
        /\ ToUpper receiverType <> "FILE")
  \/ levelByName (StringDefault cfg "level" "DEBUG") = LevelUnknown
  \/ (exists err,
        parseFlag (StringDefault cfg "pattern" DefaultPattern) = inr err).

End Construction.

(** A host made of the stand-ins, on a platform that is not Windows. *)
Definition sampleHost : Host :=
  mkHost onlySpaces asciiToUpper sampleParseString PatternCompiler.parseFlag
    sampleFormatter sampleIsFileFlagExists sampleIsFmtFlagExists
    sampleOpenFile sampleSetOpenDay "linux" true.

Definition windowsHost : Host :=
  mkHost onlySpaces asciiToUpper sampleParseString PatternCompiler.parseFlag
    sampleFormatter sampleIsFileFlagExists sampleIsFmtFlagExists
    sampleOpenFile sampleSetOpenDay "windows" true.

(** ** Package ahttp: requests ([request.go])

    The second source file wraps Go's [http.Request].  Maps of Go
    ([http.Header], [url.Values], the parameter maps) are finite maps; a
    [nil] map reads like the empty one, so only the maps whose [nil] is
    tested by the code are optional.  A method called through a [nil]
    pointer panics: such calls answer [None]. *)

(** More of package [strings], on bytes. *)

(** [strings.Index(s, sep)] for a one-byte [sep]: [None] stands for [-1]. *)
Fixpoint indexByte (sep : ascii) (s : string) : option nat :=
  match s with
  | EmptyString => None
  | String c s' =>
      if Ascii.eqb c sep then Some O
      else match indexByte sep s' with
           | Some i => Some (S i)
           | None => None
           end
  end.

(** [strings.Contains(s, substr)] *)
Fixpoint contains (s substr : string) : bool :=
  String.prefix substr s
  || match s with
     | EmptyString => false
     | String _ s' => contains s' substr
     end.

(** The ASCII part of [strings.TrimSpace]: leading and trailing white
    space bytes are removed. *)
Fixpoint trimLeftASCII (s : string) : string :=
  match s with
  | EmptyString => EmptyString
  | String c s' => if isSpaceByte c then trimLeftASCII s' else s
  end.

Fixpoint trimRightASCII (s : string) : string :=
  match s with
  | EmptyString => EmptyString
  | String c s' =>
      match trimRightASCII s' with
      | EmptyString => if isSpaceByte c then EmptyString
                       else String c EmptyString
      | rest => String c rest
      end
  end.

Definition trimSpaceASCII (s : string) : string :=
  trimRightASCII (trimLeftASCII s).

Definition firstByteIsSpace (s : string) : bool :=
  match s with
  | EmptyString => false
  | String c _ => isSpaceByte c
  end.

Fixpoint lastByteIsSpace (s : string) : bool :=
  match s with
  | EmptyString => false
  | String c EmptyString => isSpaceByte c
  | String _ s' => lastByteIsSpace s'
  end.

Fixpoint hasByte (b : ascii) (s : string) : bool :=
  match s with
  | EmptyString => false
  | String c s' => Ascii.eqb c b || hasByte b s'
  end.

(** The text before the first [sep], or all of it when there is none. *)
Definition firstElement (sep : ascii) (s : string) : string :=
  match indexByte sep s with
  | None => s
  | Some index => String.substring 0 index s
  end.

Module Ahttp.

Definition jsonpReqParamKey : string := "callback".
Definition ajaxHeaderValue : string := "XMLHttpRequest".
Definition websocketHeaderValue : string := "websocket".

(** What a [[]string] gives when its first element is asked for and an
    empty one stands for the empty string. *)
Definition firstOrEmpty (vs : list string) : string :=
  match vs with
  | [] => EmptyString
  | v :: _ => v
  end.

(** [url.Values.Get]: a [nil] or missing entry, or an empty list, is the
    empty string. *)
Definition Values_Get (v : gmap string (list string)) (key : string)
    : string :=
  match v !! key with
  | Some vs => firstOrEmpty vs
  | None => EmptyString
  end.

(** The part of [*url.URL] the package reads. *)
Record URL : Type := mkURL {
  url_Path : string;
  url_Host : string;
  url_RawQuery : string
}.

(** The part of [*http.Request] the package reads; [raw_TLS] tells whether
    the [TLS] field is not [nil]. *)
Record RawRequest : Type := mkRawRequest {
  raw_Method : string;
  raw_URL : URL;
  raw_Proto : string;
  raw_Header : gmap string (list string);
  raw_Host : string;
  raw_RemoteAddr : string;
  raw_TLS : bool
}.

(** What [request.go] uses but does not define: the negotiated types and
    their parsers, the multipart and file-system operations, the header
    names and schemes of the package's constant files, and the library
    functions [textproto.CanonicalMIMEHeaderKey], [strings.TrimSpace],
    [ess.IsStrEmpty], [net.SplitHostPort], [URL.Query],
    [filepath.Join] and [ess.IsDir]. *)
Class Env : Type := mkEnv {
  ContentType : Type;
  Locale : Type;
  AcceptSpec : Type;
  AcceptSpecs : Type;
  UploadedFile : Type;
  FileHeader : Type;
  OsFile : Type;
  FS : Type;
  CanonicalMIMEHeaderKey : string -> string;
  HeaderAcceptEncoding : string;
  HeaderReferer : string;
  HeaderUpgrade : string;
  HeaderUserAgent : string;
  HeaderXForwardedFor : string;
  HeaderXForwardedProto : string;
  HeaderXRealIP : string;
  HeaderXRequestedWith : string;
  SchemeHTTP : string;
  SchemeHTTPS : string;
  TrimSpace : string -> string;
  IsStrEmpty : string -> bool;
  SplitHostPort : string -> (string * string) + error;
  URL_Query : URL -> gmap string (list string);
  NegotiateContentType : option RawRequest -> option ContentType;
  ParseContentType : option RawRequest -> option ContentType;
  NegotiateLocale : option RawRequest -> option Locale;
  ParseAcceptEncoding : option RawRequest -> option AcceptSpecs;
  MostQualified : AcceptSpecs -> option AcceptSpec;
  FileHeader_Open : FileHeader -> option UploadedFile * option error;
  FileHeader_Filename : FileHeader -> string;
  IsDir : FS -> string -> bool;
  filepath_Join : string -> string -> string;
  os_OpenFile : string -> FS -> FS * (OsFile + error);
  io_Copy : OsFile -> option UploadedFile -> FS -> FS * (Z * option error);
  CloseQuietly_OsFile : OsFile -> FS -> FS;
  CloseQuietly_Upload : option UploadedFile -> FS -> FS
}.

Section Requests.

Context `{env : Env}.

(** [http.Header.Get]: the key is canonicalized, and the first value under
    it, if any, is the answer. *)
Definition Header_Get (h : gmap string (list string)) (key : string)
    : string :=
  match h !! CanonicalMIMEHeaderKey key with
  | Some vs => firstOrEmpty vs
  | None => EmptyString
  end.

(** [type Params struct] *)
Record Params : Type := mkParams {
  p_Path : option (gmap string string);
  p_Query : option (gmap string (list string));
  p_Form : option (gmap string (list string));
  p_File : option (gmap string (list FileHeader))
}.

(** [type Request struct] *)
Record Request : Type := mkRequest {
  req_Scheme : string;
  req_Host : string;
  req_Proto : string;
  req_Method : string;
  req_Path : string;
  req_Header : gmap string (list string);
  req_Params : option Params;
  req_Referer : string;
  req_UserAgent : string;
  req_ClientIP : string;
  req_IsGzipAccepted : bool;
  req_Raw : option RawRequest;
  req_locale : option Locale;
  req_contentType : option ContentType;
  req_acceptContentType : option ContentType;
  req_acceptEncoding : option AcceptSpec
}.

(** The zero value [&Request{}] of the pool. *)
Definition zeroRequest : Request :=
  mkRequest EmptyString EmptyString EmptyString EmptyString EmptyString ∅
    None EmptyString EmptyString EmptyString false None None None None None.

(** [func identifyScheme(r *http.Request) string] *)
Definition identifyScheme (r : RawRequest) : string :=
  let scheme := Header_Get (raw_Header r) HeaderXForwardedProto in
  if String.eqb scheme EmptyString then
    if raw_TLS r then SchemeHTTPS else SchemeHTTP
  else scheme.

(** [func clientIP(req *http.Request) string] *)
Definition clientIP (req : RawRequest) : string :=
  let fwdFor := Header_Get (raw_Header req) HeaderXForwardedFor in
  if negb (IsStrEmpty fwdFor) then
    match indexByte ","%char fwdFor with
    | None => TrimSpace fwdFor
    | Some index => TrimSpace (String.substring 0 index fwdFor)
    end
  else
    let realIP := Header_Get (raw_Header req) HeaderXRealIP in
    if negb (IsStrEmpty realIP) then TrimSpace realIP
    else
      match SplitHostPort (raw_RemoteAddr req) with
      | inl (remoteAddr, _) => TrimSpace remoteAddr
      | inr _ => EmptyString
      end.

(** [func host(r *http.Request) string] *)
Definition host (r : RawRequest) : string :=
  if String.eqb (url_Host (raw_URL r)) EmptyString then raw_Host r
  else url_Host (raw_URL r).

(** [func getReferer(hdr http.Header) string] *)
Definition getReferer (hdr : gmap string (list string)) : string :=
  let referer := Header_Get hdr HeaderReferer in
  if String.eqb referer EmptyString then Header_Get hdr "Referrer"
  else referer.

(** [func ParseRequest(r *http.Request, req *Request) *Request]: the twelve
    exported fields are assigned and the four unexported ones are left as
    they are. *)
Definition ParseRequest (r : RawRequest) (req : Request) : Request :=
  mkRequest (identifyScheme r) (host r) (raw_Proto r) (raw_Method r)
    (url_Path (raw_URL r)) (raw_Header r)
    (Some (mkParams None (Some (URL_Query (raw_URL r))) None None))
    (getReferer (raw_Header r))
    (Header_Get (raw_Header r) HeaderUserAgent)
    (clientIP r)
    (contains (Header_Get (raw_Header r) HeaderAcceptEncoding) "gzip")
    (Some r)
    (req_locale req) (req_contentType req) (req_acceptContentType req)
    (req_acceptEncoding req).

(** [func (r *Request) Unwrap() *http.Request] *)
Definition Unwrap (r : Request) : option RawRequest := req_Raw r.

Definition with_locale (v : option Locale) (r : Request) : Request :=
  mkRequest (req_Scheme r) (req_Host r) (req_Proto r) (req_Method r)
    (req_Path r) (req_Header r) (req_Params r) (req_Referer r)
    (req_UserAgent r) (req_ClientIP r) (req_IsGzipAccepted r) (req_Raw r)
    v (req_contentType r) (req_acceptContentType r) (req_acceptEncoding r).

Definition with_contentType (v : option ContentType) (r : Request)
    : Request :=
  mkRequest (req_Scheme r) (req_Host r) (req_Proto r) (req_Method r)
    (req_Path r) (req_Header r) (req_Params r) (req_Referer r)
    (req_UserAgent r) (req_ClientIP r) (req_IsGzipAccepted r) (req_Raw r)
    (req_locale r) v (req_acceptContentType r) (req_acceptEncoding r).

Definition with_acceptContentType (v : option ContentType) (r : Request)
    : Request :=
  mkRequest (req_Scheme r) (req_Host r) (req_Proto r) (req_Method r)
    (req_Path r) (req_Header r) (req_Params r) (req_Referer r)
    (req_UserAgent r) (req_ClientIP r) (req_IsGzipAccepted r) (req_Raw r)
    (req_locale r) (req_contentType r) v (req_acceptEncoding r).

Definition with_acceptEncoding (v : option AcceptSpec) (r : Request)
    : Request :=
  mkRequest (req_Scheme r) (req_Host r) (req_Proto r) (req_Method r)
    (req_Path r) (req_Header r) (req_Params r) (req_Referer r)
    (req_UserAgent r) (req_ClientIP r) (req_IsGzipAccepted r) (req_Raw r)
    (req_locale r) (req_contentType r) (req_acceptContentType r) v.

(** The getters that negotiate once and keep the answer: each returns the
    request as the call leaves it, and the value. *)

(** [func (r *Request) AcceptContentType() *ContentType] *)
Definition AcceptContentType (r : Request) : Request * option ContentType :=
  match req_acceptContentType r with
  | None =>
      let v := NegotiateContentType (Unwrap r) in
      (with_acceptContentType v r, v)
  | Some v => (r, Some v)
  end.

(** [func (r *Request) SetAcceptContentType(contentType *ContentType)] *)
Definition SetAcceptContentType (contentType : option ContentType)
    (r : Request) : Request :=
  with_acceptContentType contentType r.

(** [func (r *Request) AcceptEncoding() *AcceptSpec] *)
Definition AcceptEncoding (r : Request) : Request * option AcceptSpec :=
  match req_acceptEncoding r with
  | None =>
      match ParseAcceptEncoding (Unwrap r) with
      | Some specs =>
          let v := MostQualified specs in (with_acceptEncoding v r, v)
      | None => (r, None)
      end
  | Some v => (r, Some v)
  end.

(** [func (r *Request) SetAcceptEncoding(encoding *AcceptSpec)] *)
Definition SetAcceptEncoding (encoding : option AcceptSpec) (r : Request)
    : Request :=
  with_acceptEncoding encoding r.

(** [func (r *Request) ContentType() *ContentType] *)
Definition Request_ContentType (r : Request)
    : Request * option ContentType :=
  match req_contentType r with
  | None =>
      let v := ParseContentType (Unwrap r) in (with_contentType v r, v)
  | Some v => (r, Some v)
  end.

(** [func (r *Request) SetContentType(contType *ContentType)] *)
Definition SetContentType (contType : option ContentType) (r : Request)
    : Request :=
  with_contentType contType r.

(** [func (r *Request) Locale() *Locale] *)
Definition Request_Locale (r : Request) : Request * option Locale :=
  match req_locale r with
  | None => let v := NegotiateLocale (Unwrap r) in (with_locale v r, v)
  | Some v => (r, Some v)
  end.

(** [func (r *Request) SetLocale(locale *Locale)] *)
Definition SetLocale (locale : option Locale) (r : Request) : Request :=
  with_locale locale r.

(** [func (p *Params) PathValue(key string) string] *)
Definition PathValue (p : Params) (key : string) : string :=
  match p_Path p with
  | Some path =>
      match path !! key with
      | Some value => value
      | None => EmptyString
      end
  | None => EmptyString
  end.

(** [func (p *Params) QueryValue(key string) string] *)
Definition QueryValue (p : Params) (key : string) : string :=
  match p_Query p with
  | Some query => Values_Get query key
  | None => EmptyString
  end.

(** [func (p *Params) QueryArrayValue(key string) []string] *)
Definition QueryArrayValue (p : Params) (key : string) : list string :=
  match p_Query p with
  | Some query =>
      match query !! key with
      | Some values => values
      | None => []
      end
  | None => []
  end.

(** [func (p *Params) FormValue(key string) string] *)
Definition FormValue (p : Params) (key : string) : string :=
  match p_Form p with
  | Some form => Values_Get form key
  | None => EmptyString
  end.

(** [func (p *Params) FormArrayValue(key string) []string] *)
Definition FormArrayValue (p : Params) (key : string) : list string :=
  match p_Form p with
  | Some form =>
      match form !! key with
      | Some values => values
      | None => []
      end
  | None => []
  end.

Definition ErrNoSuchFile (key : string) : error :=
  "ahttp: no such key/file: " ++ key.

(** [func (p *Params) FormFile(key string)
    (multipart.File, *multipart.FileHeader, error)] *)
Definition FormFile (p : Params) (key : string)
    : option UploadedFile * option FileHeader * option error :=
  match p_File p with
  | Some file =>
      match file !! key with
      | Some (fh0 :: _) =>
          let '(f, err) := FileHeader_Open fh0 in (f, Some fh0, err)
      | _ => (None, None, Some (ErrNoSuchFile key))
      end
  | None => (None, None, None)
  end.

(** The methods of [*Request] that go through [r.Params]: with a [nil]
    [Params] the call panics. *)
Definition Request_PathValue (r : Request) (key : string) : option string :=
  match req_Params r with
  | Some p => Some (PathValue p key)
  | None => None
  end.

Definition Request_QueryValue (r : Request) (key : string) : option string :=
  match req_Params r with
  | Some p => Some (QueryValue p key)
  | None => None
  end.

Definition Request_QueryArrayValue (r : Request) (key : string)
    : option (list string) :=
  match req_Params r with
  | Some p => Some (QueryArrayValue p key)
  | None => None
  end.

Definition Request_FormValue (r : Request) (key : string) : option string :=
  match req_Params r with
  | Some p => Some (FormValue p key)
  | None => None
  end.

Definition Request_FormArrayValue (r : Request) (key : string)
    : option (list string) :=
  match req_Params r with
  | Some p => Some (FormArrayValue p key)
  | None => None
  end.

Definition Request_FormFile (r : Request) (key : string)
    : option (option UploadedFile * option FileHeader * option error) :=
  match req_Params r with
  | Some p => Some (FormFile p key)
  | None => None
  end.

(** [func (r *Request) IsJSONP() bool] *)
Definition IsJSONP (r : Request) : option bool :=
  match Request_QueryValue r jsonpReqParamKey with
  | Some v => Some (negb (IsStrEmpty v))
  | None => None
  end.

(** [func (r *Request) IsAJAX() bool] *)
Definition IsAJAX (r : Request) : bool :=
  String.eqb (Header_Get (req_Header r) HeaderXRequestedWith) ajaxHeaderValue.

(** [func (r *Request) IsWebSocket() bool] *)
Definition IsWebSocket (r : Request) : bool :=
  String.eqb (Header_Get (req_Header r) HeaderUpgrade) websocketHeaderValue.

(** [func (r *Request) Reset()] *)
Definition Reset (r : Request) : Request :=
  mkRequest EmptyString EmptyString EmptyString EmptyString EmptyString ∅
    None EmptyString EmptyString EmptyString false None None None None None.

(** [func saveFile(r io.Reader, destFile string) (int64, error)]; the file
    opened is closed when the function returns. *)
Definition saveFile (r : option UploadedFile) (destFile : string) (fs : FS)
    : FS * (Z * option error) :=
  match os_OpenFile destFile fs with
  | (fs1, inr err) => (fs1, (0, Some ("ahttp: " ++ err)))
  | (fs1, inl f) =>
      let '(fs2, res) := io_Copy f r fs1 in (CloseQuietly_OsFile f fs2, res)
  end.

Definition ErrKeyOrDstEmpty : error :=
  errors_New "ahttp: key or dstFile is empty".

Definition ErrDstIsDir : error :=
  errors_New "ahttp: dstFile should not be a directory".

(** [func (r *Request) SaveFile(key, dstFile string) (int64, error)];
    [None] is the panic of a [nil] [Params]. *)
Definition SaveFile (r : Request) (key dstFile : string) (fs : FS)
    : option (FS * (Z * option error)) :=
  if IsStrEmpty dstFile || IsStrEmpty key then
    Some (fs, (0, Some ErrKeyOrDstEmpty))
  else if IsDir fs dstFile then Some (fs, (0, Some ErrDstIsDir))
  else
    match Request_FormFile r key with
    | None => None
    | Some (_, _, Some err) => Some (fs, (0, Some err))
    | Some (uploadedFile, _, None) =>
        let '(fs1, res) := saveFile uploadedFile dstFile fs in
        Some (CloseQuietly_Upload uploadedFile fs1, res)
    end.



(** [p.File[key]]: the file headers under a key; a [nil] map and a missing
    key give none. *)
Definition filesUnder (p : Params) (key : string) : list FileHeader :=
  match p_File p with
  | Some file =>
      match file !! key with
      | Some fhs => fhs
      | None => []
      end
  | None => []
  end.



End Requests.

End Ahttp.

(** More configurations, and a host whose parser knows them. *)
Definition allWrongConfig : Config :=
  mkConfig
    (<["receiver" := "SYSLOG"]>
       (<["level" := "LOUD"]> {["pattern" := "%when"]})) ∅.

Definition consoleBigSizeConfig : Config :=
  mkConfig {["receiver" := "console"]} {["rotate.size" := 4096]}.

Definition negativeSizeConfig : Config :=
  mkConfig (<["receiver" := "FILE"]> {["rotate.mode" := "size"]})
    {["rotate.size" := -1]}.

Definition upperDailyConfig : Config :=
  mkConfig (<["receiver" := "FILE"]> {["rotate.mode" := "DAILY"]}) ∅.

Definition moreParseString (text : string) : Config + error :=
  if String.eqb text "receiver = SYSLOG; level = LOUD; pattern = %when"
  then inl allWrongConfig
  else if String.eqb text "receiver = console; rotate.size = 4096"
  then inl consoleBigSizeConfig
  else inr (errors_New "syntax error").

Definition moreHost : Host :=
  mkHost onlySpaces asciiToUpper moreParseString PatternCompiler.parseFlag
    sampleFormatter sampleIsFileFlagExists sampleIsFmtFlagExists
    sampleOpenFile sampleSetOpenDay "linux" true.

(** A small environment for [request.go]: header keys are taken as
    canonical already, the negotiated values are their names, an uploaded
    file is its content, and the file system maps a path to a content, with
    one content marking directories. *)
Definition dirMark : string := "<dir>".

Definition sampleEnv : Ahttp.Env :=
  Ahttp.mkEnv string string string (list string) string string string
    (gmap string string)
    (fun key => key)
    "Accept-Encoding" "Referer" "Upgrade" "User-Agent" "X-Forwarded-For"
    "X-Forwarded-Proto" "X-Real-Ip" "X-Requested-With"
    "http" "https"
    trimSpaceASCII onlySpaces
    (fun addr =>
       match cut ":"%char addr with
       | (h, Some port) => inl (h, port)
       | (_, None) => inr (errors_New "missing port in address")
       end)
    (fun u => {[ "q" := [Ahttp.url_RawQuery u] ]})
    (fun _ => Some "text/html")
    (fun _ => Some "application/json")
    (fun _ => Some "en")
    (fun _ => Some ["gzip"; "deflate"])
    (fun specs => head specs)
    (fun fh =>
       if String.eqb fh "broken" then (None, Some (errors_New "open failed"))
       else (Some ("content of " ++ fh), None))
    (fun fh => fh)
    (fun fs path => bool_decide (fs !! path = Some dirMark))
    (fun dir name => dir ++ "/" ++ name)
    (fun path fs => (<[path := EmptyString]> fs, inl path))
    (fun f r fs =>
       match r with
       | Some content => (<[f := content]> fs, (byteLen content, None))
       | None => (fs, (0, Some (errors_New "nil reader")))
       end)
    (fun _ fs => fs)
    (fun _ fs => fs).

Definition sampleRaw : Ahttp.RawRequest :=
  Ahttp.mkRawRequest "GET" (Ahttp.mkURL "/users" "" "aah") "HTTP/1.1"
    (<["X-Forwarded-For" := [" 10.0.0.1 , 10.0.0.2"] ]>
       {[ "X-Real-Ip" := ["192.168.0.9"] ]})
    "example.com" "127.0.0.1:4000" false.

Definition directRaw : Ahttp.RawRequest :=
  Ahttp.mkRawRequest "GET" (Ahttp.mkURL "/users" "" "aah") "HTTP/1.1" ∅
    "example.com" "127.0.0.1:4000" false.





(** ** Facts about the tables *)

Lemma levelNameToLevel_None (key : string) :
  key ∉ ["ERROR"; "WARN"; "INFO"; "DEBUG"; "TRACE"] ->
  levelNameToLevel !! key = None.
Proof.
  intros Hout. unfold levelNameToLevel.
  repeat (rewrite lookup_insert_ne;
          [| intros <-; apply Hout; set_solver]).
  apply lookup_empty.
Qed.

Lemma levelNameToLevel_Some (key : string) (level : Level) :
  levelNameToLevel !! key = Some level ->
  key ∈ ["ERROR"; "WARN"; "INFO"; "DEBUG"; "TRACE"]
  /\ LevelError <= level <= LevelTrace.
Proof.
  unfold levelNameToLevel, LevelError, LevelWarn, LevelInfo, LevelDebug,
    LevelTrace.
  repeat (rewrite lookup_insert; case_decide;
          [intros [= <-]; subst key; split; [set_solver | lia] |]).
  rewrite lookup_empty. discriminate.
Qed.

Lemma levelToLevelName_None (level : Level) :
  ~ (LevelError <= level <= LevelTrace) ->
  levelToLevelName !! level = None.
Proof.
  unfold levelToLevelName, LevelError, LevelWarn, LevelInfo, LevelDebug,
    LevelTrace.
  intros Hout.
  repeat (rewrite lookup_insert_ne; [| lia]).
  apply lookup_empty.
Qed.

Lemma onlySpaces_isASCII (s : string) :
  onlySpaces s = true -> isASCII s = true.
Proof.
  induction s as [| c s IH]; [reflexivity |].
  cbn [onlySpaces isASCII]. intros [Hc Hs]%andb_prop.
  rewrite IH by exact Hs. rewrite andb_true_r.
  unfold isSpaceByte in Hc. unfold isASCIIbyte.
  apply Nat.ltb_lt.
  apply orb_prop in Hc as [[_ H13]%andb_prop | H32].
  - apply Nat.leb_le in H13. lia.
  - apply Nat.eqb_eq in H32. lia.
Qed.

(** ** Facts about the constructors *)

Section ConstructionFacts.

Context `{host : Host}.

(** On ASCII text [strings.ToUpper] maps the bytes [a]..[z] to [A]..[Z] and
    keeps the others; [ess.StrIsEmpty] holds of an ASCII text exactly when
    it is made of white space. *)
Hypothesis ToUpper_ascii :
  forall s, isASCII s = true -> ToUpper s = asciiToUpper s.
Hypothesis StrIsEmpty_ascii :
  forall s, isASCII s = true -> StrIsEmpty s = onlySpaces s.

Lemma levelByName_upper (name : string) :
  isASCII name = true ->
  levelByName name =
    match levelNameToLevel !! asciiToUpper name with
    | Some level => level
    | None => LevelUnknown
    end.
Proof using ToUpper_ascii.
  intros Hascii. unfold levelByName. now rewrite ToUpper_ascii.
Qed.

(** C10: looking a level name up ignores letter case; for each of the five
    named levels, the name given by [String()] is looked up to the level
    itself; a name whose upper-case form is not a key of the table is
    looked up to [LevelUnknown]; and [String()] of a level outside the
    table is ["Unknown"]. *)
Theorem levelByName_String_table :
  (forall a b, ToUpper a = ToUpper b -> levelByName a = levelByName b)
  /\ (forall a b, isASCII a = true -> isASCII b = true ->
        asciiToUpper a = asciiToUpper b -> levelByName a = levelByName b)
  /\ (forall level, LevelError <= level <= LevelTrace ->
        levelByName (Level_String level) = level)
  /\ (forall name,
        ToUpper name ∉ ["ERROR"; "WARN"; "INFO"; "DEBUG"; "TRACE"] ->
        levelByName name = LevelUnknown)
  /\ (forall level, ~ (LevelError <= level <= LevelTrace) ->
        Level_String level = "Unknown").
Proof using ToUpper_ascii.
  split; [| split; [| split; [| split]]].
  - intros a b Heq. unfold levelByName. now rewrite Heq.
  - intros a b Ha Hb Heq. rewrite !levelByName_upper by assumption.
    now rewrite Heq.
  - intros level Hr.
    unfold LevelError, LevelTrace in Hr.
    assert (Hcases : level = 0 \/ level = 1 \/ level = 2 \/ level = 3
                     \/ level = 4) by lia.
    destruct Hcases as [-> | [-> | [-> | [-> | ->]]]];
      (rewrite levelByName_upper; [vm_compute; reflexivity | reflexivity]).
  - intros name Hout. unfold levelByName.
    now rewrite levelNameToLevel_None.
  - intros level Hout. unfold Level_String.
    now rewrite levelToLevelName_None.
Qed.

Lemma newFileReceiver_over_cap cfg receiverType level flags w :
  2048 < IntDefault cfg "rotate.size" 100 ->
  newFileReceiver cfg receiverType level flags w
  = (w, (None, Some ErrMaxFileSize)).
Proof using Type.
  intros Hbig. unfold newFileReceiver.
  apply Z.ltb_lt in Hbig. now rewrite Hbig.
Qed.

Lemma newFileReceiver_within_cap cfg receiverType level flags w :
  IntDefault cfg "rotate.size" 100 <= 2048 ->
  newFileReceiver cfg receiverType level flags w
  = let '(w1, receiver, err) :=
      openFile (fileReceiverLiteral cfg receiverType level flags) w in
    match err with
    | Some e => (w1, failWith e)
    | None =>
        let mode := StringDefault cfg "rotate.mode" "daily" in
        let receiver := set_rotate mode receiver in
        (w1,
         (Some
            (if String.eqb mode "daily" then setOpenDay receiver w1
             else if String.eqb mode "lines" then
               set_maxLines (IntDefault cfg "rotate.lines" 0) receiver
             else if String.eqb mode "size" then
               set_maxSize
                 (mulInt (mulInt (IntDefault cfg "rotate.size" 100) 1024)
                    1024) receiver
             else receiver),
          None))
    end.
Proof using Type.
  intros Hsmall. unfold newFileReceiver.
  apply Z.ltb_ge in Hsmall. rewrite Hsmall.
  destruct (openFile _ w) as [[w1 r1] [e |]]; reflexivity.
Qed.

Lemma newFileReceiver_shape cfg receiverType level flags w :
  (exists w1 r, newFileReceiver cfg receiverType level flags w
                = (w1, (Some r, None)))
  \/ (exists w1 e, newFileReceiver cfg receiverType level flags w
                   = (w1, (None, Some e))).
Proof using Type.
  destruct (Z_lt_le_dec 2048 (IntDefault cfg "rotate.size" 100)) as [Hb | Hs].
  - right. exists w, ErrMaxFileSize. now apply newFileReceiver_over_cap.
  - rewrite newFileReceiver_within_cap by exact Hs.
    destruct (openFile _ w) as [[w1 r1] [e |]].
    + right. now exists w1, e.
    + left. eexists w1, _. reflexivity.
Qed.

(** C1: a file receiver whose [rotate.size] is above 2048 is refused with
    the size error, whatever the rotation mode and before any file is
    opened, and [New] returns no logger for such a configuration; the
    value 2048 passes the test, and in [size] mode the threshold is then
    2048 MB, not a clamped value. *)
Theorem rotate_size_cap :
  (forall cfg receiverType level flags w,
      2048 < IntDefault cfg "rotate.size" 100 ->
      newFileReceiver cfg receiverType level flags w
      = (w, (None, Some ErrMaxFileSize)))
  /\ (forall configStr cfg receiverType w,
        ParseString configStr = inl cfg ->
        Config_String cfg "receiver" = Some receiverType ->
        ToUpper receiverType = "FILE" ->
        2048 < IntDefault cfg "rotate.size" 100 ->
        exists e, New configStr w = (w, (None, Some e))
          /\ (StrIsEmpty configStr = false ->
              levelByName (StringDefault cfg "level" "DEBUG")
                <> LevelUnknown ->
              (exists flags,
                  parseFlag (StringDefault cfg "pattern" DefaultPattern)
                  = inl flags) ->
              e = ErrMaxFileSize))
  /\ (forall cfg receiverType level flags w w1 r1,
        IntDefault cfg "rotate.size" 100 = 2048 ->
        openFile (fileReceiverLiteral cfg receiverType level flags) w
        = (w1, r1, None) ->
        exists r, newFileReceiver cfg receiverType level flags w
                  = (w1, (Some r, None))
          /\ (StringDefault cfg "rotate.mode" "daily" = "size" ->
              r = set_maxSize 2147483648 (set_rotate "size" r1))).
Proof using Type.
  split; [| split].
  - intros. now apply newFileReceiver_over_cap.
  - intros configStr cfg receiverType w Hparse Hrecv Hfile Hbig.
    unfold New. rewrite Hparse, Hrecv, Hfile.
    destruct (StrIsEmpty configStr); [eexists; split; [reflexivity |
      discriminate] |].
    destruct (levelByName _ =? LevelUnknown) eqn:Hlevel.
    { eexists; split; [reflexivity |]. intros _ Hne _.
      apply Z.eqb_eq in Hlevel. contradiction. }
    destruct (parseFlag _) as [flags | err] eqn:Hflags.
    2:{ eexists; split; [reflexivity |]. intros _ _ [fl [=]]. }
    cbn [String.eqb Ascii.eqb Bool.eqb].
    rewrite newFileReceiver_over_cap by exact Hbig.
    eexists; split; reflexivity.
  - intros cfg receiverType level flags w w1 r1 Hsize Hopen.
    rewrite newFileReceiver_within_cap by lia.
    rewrite Hopen. cbv zeta. eexists; split; [reflexivity |].
    intros Hmode. rewrite Hmode, Hsize. reflexivity.
Qed.

Lemma New_shape configStr w :
  (exists w1 r, New configStr w = (w1, (Some r, None)))
  \/ (exists w1 e, New configStr w = (w1, (None, Some e))).
Proof using Type.
  unfold New.
  destruct (StrIsEmpty configStr); [right; now eexists _, _ |].
  destruct (ParseString configStr) as [cfg | err];
    [| right; now eexists _, _].
  destruct (Config_String cfg "receiver") as [receiverType |];
    [| right; now eexists _, _].
  destruct (levelByName _ =? LevelUnknown); [right; now eexists _, _ |].
  destruct (parseFlag _) as [flags | err]; [| right; now eexists _, _].
  destruct (String.eqb (ToUpper receiverType) "CONSOLE").
  { unfold newConsoleReceiver.
    destruct receiverIsLogger; [left | right]; now eexists _, _. }
  destruct (String.eqb (ToUpper receiverType) "FILE");
    [| right; now eexists _, _].
  destruct (newFileReceiver_shape cfg (ToUpper receiverType)
              (levelByName (StringDefault cfg "level" "DEBUG")) flags w)
    as [(w1 & r & ->) | (w1 & e & ->)].
  - destruct receiverIsLogger; [left | right]; now eexists _, _.
  - right. now eexists _, _.
Qed.

(** C4: [New] answers with a logger and no error, or with an error and no
    logger, never with both or neither; and a configuration without a
    [receiver] key, with a receiver that is neither CONSOLE nor FILE once
    upper-cased, with an unrecognized level name, or with a pattern the
    compiler refuses, gets an error and no logger, and nothing is opened. *)
Theorem New_logger_or_error :
  (forall configStr w,
      (exists w1 r, New configStr w = (w1, (Some r, None)))
      \/ (exists w1 e, New configStr w = (w1, (None, Some e))))
  /\ (forall configStr cfg w,
        ParseString configStr = inl cfg ->
        refused cfg ->
        exists e, New configStr w = (w, (None, Some e))).
Proof using Type.
  split; [exact New_shape |].
  intros configStr cfg w Hparse Hbad. unfold New. rewrite Hparse.
  destruct (StrIsEmpty configStr); [now eexists |].
  destruct Hbad as [Hnone | [(rt & Hrt & Hc & Hf) | [Hlevel | (err & Hp)]]].
  - rewrite Hnone. now eexists.
  - rewrite Hrt.
    destruct (levelByName _ =? LevelUnknown); [now eexists |].
    destruct (parseFlag _); [| now eexists].
    apply String.eqb_neq in Hc, Hf. rewrite Hc, Hf. now eexists.
  - destruct (Config_String cfg "receiver"); [| now eexists].
    rewrite Hlevel. now eexists.
  - destruct (Config_String cfg "receiver"); [| now eexists].
    destruct (levelByName _ =? LevelUnknown); [now eexists |].
    rewrite Hp. now eexists.
Qed.

(** C9: for a configuration text that [ess.StrIsEmpty] reports empty, and
    so for every text made of ASCII white space only, the empty text among
    them, [New] returns no logger and the error "logger config is empty";
    the world is as it was, and neither the parser nor a constructor
    contributes to the answer. *)
Theorem New_empty_config (configStr : string) (w : World) :
  StrIsEmpty configStr = true \/ onlySpaces configStr = true ->
  New configStr w = (w, (None, Some (errors_New "logger config is empty"))).
Proof using StrIsEmpty_ascii.
  intros Hempty.
  assert (Htest : StrIsEmpty configStr = true).
  { destruct Hempty as [H | H]; [exact H |].
    rewrite StrIsEmpty_ascii by now apply onlySpaces_isASCII. exact H. }
  unfold New. now rewrite Htest.
Qed.

Lemma levelByName_DEBUG : levelByName "DEBUG" = LevelDebug.
Proof using ToUpper_ascii. rewrite levelByName_upper; reflexivity. Qed.

(** C7: the defaults of construction.  Without a [level] key the receiver
    gets [LevelDebug]; without a [pattern] key its flags are the compiled
    [DefaultPattern], which is the layout quoted in the interface table;
    without a [rotate.mode] key a file receiver takes the [daily] branch;
    and without a [rotate.size] key the size threshold of [size] mode is
    100 MB. *)
Theorem construction_defaults :
  (forall configStr cfg receiverType w,
      StrIsEmpty configStr = false ->
      ParseString configStr = inl cfg ->
      Config_String cfg "receiver" = Some receiverType ->
      ToUpper receiverType = "CONSOLE" ->
      receiverIsLogger = true ->
      Config_String cfg "level" = None ->
      (exists flags,
          parseFlag (StringDefault cfg "pattern" DefaultPattern)
          = inl flags) ->
      exists r, New configStr w = (w, (Some r, None))
                /\ r_level r = LevelDebug)
  /\ (forall configStr cfg receiverType flags w,
        StrIsEmpty configStr = false ->
        ParseString configStr = inl cfg ->
        Config_String cfg "receiver" = Some receiverType ->
        ToUpper receiverType = "CONSOLE" ->
        receiverIsLogger = true ->
        levelByName (StringDefault cfg "level" "DEBUG") <> LevelUnknown ->
        Config_String cfg "pattern" = None ->
        parseFlag DefaultPattern = inl flags ->
        exists r, New configStr w = (w, (Some r, None))
                  /\ r_Flags r = flags)
  /\ DefaultPattern
     = "%time:2006-01-02 15:04:05.000 %level:-5 %custom:- %message"
  /\ (forall cfg receiverType level flags w w1 r1,
        IntDefault cfg "rotate.size" 100 <= 2048 ->
        Config_String cfg "rotate.mode" = None ->
        openFile (fileReceiverLiteral cfg receiverType level flags) w
        = (w1, r1, None) ->
        newFileReceiver cfg receiverType level flags w
        = (w1, (Some (setOpenDay (set_rotate "daily" r1) w1), None)))
  /\ (forall cfg receiverType level flags w w1 r1,
        Config_Int cfg "rotate.size" = None ->
        Config_String cfg "rotate.mode" = Some "size" ->
        openFile (fileReceiverLiteral cfg receiverType level flags) w
        = (w1, r1, None) ->
        newFileReceiver cfg receiverType level flags w
        = (w1,
           (Some (set_maxSize (100 * 1024 * 1024) (set_rotate "size" r1)),
            None))).
Proof.
  split; [| split; [| split; [reflexivity | split]]].
  - intros configStr cfg receiverType w Hne Hparse Hrecv Hcons Hlog Hlevel
      Hflags.
    assert (Hdef : StringDefault cfg "level" "DEBUG" = "DEBUG")
      by (unfold StringDefault; now rewrite Hlevel).
    unfold New. rewrite Hne, Hparse, Hrecv, Hcons, Hdef, levelByName_DEBUG.
    cbn [Z.eqb LevelDebug LevelUnknown Pos.eqb].
    destruct Hflags as [flags ->].
    cbn [String.eqb Ascii.eqb Bool.eqb]. unfold newConsoleReceiver.
    rewrite Hlog. eexists; split; reflexivity.
  - intros configStr cfg receiverType flags w Hne Hparse Hrecv Hcons Hlog
      Hlevel Hpat Hflags.
    unfold New. rewrite Hne, Hparse, Hrecv, Hcons.
    assert (Hdef : StringDefault cfg "pattern" DefaultPattern
                   = DefaultPattern)
      by (unfold StringDefault; now rewrite Hpat).
    apply Z.eqb_neq in Hlevel. rewrite Hlevel, Hdef, Hflags.
    cbn [String.eqb Ascii.eqb Bool.eqb]. unfold newConsoleReceiver.
    rewrite Hlog. eexists; split; reflexivity.
  - intros cfg receiverType level flags w w1 r1 Hsize Hmode Hopen.
    rewrite newFileReceiver_within_cap by exact Hsize.
    rewrite Hopen. unfold StringDefault. rewrite Hmode. reflexivity.
  - intros cfg receiverType level flags w w1 r1 Hsize Hmode Hopen.
    assert (Hdef : IntDefault cfg "rotate.size" 100 = 100)
      by (unfold IntDefault; now rewrite Hsize).
    rewrite newFileReceiver_within_cap by lia.
    rewrite Hopen, Hdef. unfold StringDefault. rewrite Hmode. reflexivity.
Qed.

(** C8: the console receiver is built with the standard error stream as
    its sink and with its colour flag fixed from the platform at
    construction; [Output] then writes to that stream, with the colour
    codes around the rendered line exactly when the platform is not
    Windows, and reads nothing but the receiver to decide so. *)
Theorem console_receiver_sink_and_color cfg receiverType level flags :
  exists r,
    newConsoleReceiver cfg receiverType level flags = (Some r, None)
    /\ r_out r = Some os_Stderr
    /\ r_isColor r = negb (String.eqb GOOS "windows")
    /\ forall e w,
        Runtime.Output r e w
        = (Runtime.withStderr w
             (app (stderr w)
                [if String.eqb GOOS "windows"
                 then Runtime.render r e ++ Runtime.lineTerminator
                 else Runtime.colorOf (e_Level e) ++ Runtime.render r e
                        ++ resetColor ++ Runtime.lineTerminator]),
           Runtime.countWrite
             (byteLen (Runtime.render r e ++ Runtime.lineTerminator)) r,
           None).
Proof using Type.
  eexists. split; [reflexivity |]. split; [reflexivity |].
  split; [reflexivity |]. intros e w.
  unfold Runtime.Output, Runtime.decorate. cbn.
  destruct (String.eqb GOOS "windows"); reflexivity.
Qed.

End ConstructionFacts.

(** ** Facts about receivers at run time *)

Lemma rotateFile_stats (r : Receiver) (w : World) :
  r_stats (snd (Runtime.rotateFile r w)) = r_stats r.
Proof.
  unfold Runtime.rotateFile.
  destruct (r_out r) as [[| path] |] eqn:Hout; reflexivity.
Qed.

(** A call of [Output] always shows: it answers with an error or it moves
    the line counter. *)
Lemma Output_not_silent (r : Receiver) (e : Entry) (w : World) :
  Runtime.Output r e w <> (w, r, None).
Proof.
  unfold Runtime.Output. destruct (r_closed r); [discriminate |].
  set (line := Runtime.render r e ++ Runtime.lineTerminator).
  pose proof (rotateFile_stats r w) as Hstats.
  destruct (Runtime.needsRotate r line w);
    [destruct (Runtime.rotateFile r w) as [w1 r1] | ];
    cbn [snd] in *.
  - destruct (Runtime.writeSink _ _ w1); [| discriminate].
    intros [= _ Hr]. apply (f_equal r_stats) in Hr.
    apply (f_equal LinesWritten) in Hr. cbn in Hr. rewrite Hstats in Hr. lia.
  - destruct (Runtime.writeSink _ _ w); [| discriminate].
    intros [= _ Hr]. apply (f_equal r_stats) in Hr.
    apply (f_equal LinesWritten) in Hr. cbn in Hr. lia.
Qed.

(** C3: the levels are ordered Error < Warn < Info < Debug < Trace, and a
    level-tagged logging call hands its entry to [Output] exactly when the
    entry's level is at most the receiver's threshold; above the threshold
    the call leaves the world and the receiver, statistics included, as
    they were. *)
Theorem level_filtering :
  (LevelError < LevelWarn /\ LevelWarn < LevelInfo /\ LevelInfo < LevelDebug
   /\ LevelDebug < LevelTrace)
  /\ forall level r format values caller w,
      (Runtime.logAt level r format values caller w
       = Runtime.Output r
           (Runtime.newEntry r level format values caller w) w
       <-> level <= r_level r)
      /\ (r_level r < level ->
          Runtime.logAt level r format values caller w = (w, r, None)).
Proof.
  split; [repeat split |].
  intros level r format values caller w. unfold Runtime.logAt.
  destruct (Z.leb_spec level (r_level r)) as [Hle | Hgt].
  - split; [tauto | lia].
  - split; [| reflexivity].
    split; [| lia]. intros Heq. symmetry in Heq.
    now apply Output_not_silent in Heq.
Qed.

Lemma step_closed (c : Runtime.Call) (r : Receiver) (w : World) :
  r_closed r = true ->
  exists t,
    Runtime.step c r w
    = (mkWorld t (stderr w) (files w) (openFiles w), r, closedAnswer r c).
Proof.
  intros Hclosed. destruct c as [e | level format values caller | | t]; cbn.
  - exists (now w). unfold Runtime.Output. rewrite Hclosed. now destruct w.
  - exists (now w). unfold Runtime.logAt, Runtime.Output. rewrite Hclosed.
    destruct (level <=? r_level r); now destruct w.
  - exists (now w). unfold Runtime.Close. rewrite Hclosed. now destruct w.
  - now exists t.
Qed.

Lemma run_closed (calls : list Runtime.Call) :
  forall (r : Receiver) (w : World),
    r_closed r = true ->
    exists t,
      Runtime.run calls r w
      = (mkWorld t (stderr w) (files w) (openFiles w), r,
         map (closedAnswer r) calls).
Proof.
  induction calls as [| c calls IH]; intros r w Hclosed.
  - exists (now w). now destruct w.
  - cbn [Runtime.run map].
    destruct (step_closed c r w Hclosed) as [t ->].
    destruct (IH r (mkWorld t (stderr w) (files w) (openFiles w)) Hclosed)
      as [t' ->].
    now exists t'.
Qed.

Lemma Close_closes (r : Receiver) (w : World) :
  r_closed (snd (Runtime.Close r w)) = true
  /\ r_stats (snd (Runtime.Close r w)) = r_stats r.
Proof.
  unfold Runtime.Close. destruct (r_closed r) eqn:Hc; cbn; auto.
Qed.

(** C2: once [Close] has been called on a receiver, whatever calls follow,
    every [Output] among them answers with the closed-writer error
    "log writer is closed", the standard error stream and the files are
    what they were when [Close] returned, and the statistics are the ones
    the receiver had before [Close]. *)
Theorem closed_receiver_refuses (r : Receiver) (w : World)
    (calls : list Runtime.Call) :
  let closed := Runtime.Close r w in
  let after := Runtime.run calls (snd closed) (fst closed) in
  ErrWriterIsClosed = "log writer is closed"
  /\ (forall i e, calls !! i = Some (Runtime.CallOutput e) ->
        snd after !! i = Some (Some ErrWriterIsClosed))
  /\ stderr (fst (fst after)) = stderr (fst closed)
  /\ files (fst (fst after)) = files (fst closed)
  /\ openFiles (fst (fst after)) = openFiles (fst closed)
  /\ Runtime.Stats (snd (fst after)) = Runtime.Stats r
  /\ Runtime.Closed (snd (fst after)) = true.
Proof.
  intros closed after.
  destruct (Close_closes r w) as [Hclosed Hstats]. fold closed in Hclosed, Hstats.
  destruct (run_closed calls (snd closed) (fst closed) Hclosed) as [t Hrun].
  subst after. rewrite Hrun. cbn [fst snd stderr files openFiles].
  split; [reflexivity |]. split; [| now repeat split].
  intros i e Hi. rewrite list_lookup_fmap, Hi. reflexivity.
Qed.

(** ** Facts about rotation *)

Lemma append_empty_r (s : string) : s ++ "" = s.
Proof.
  induction s as [| c s IH]; [reflexivity |].
  change (String c (s ++ "") = String c s). now rewrite IH.
Qed.

Lemma length_append (a b : string) :
  String.length (a ++ b) = (String.length a + String.length b)%nat.
Proof.
  induction a as [| c a IH]; [reflexivity |].
  change (S (String.length (a ++ b))
          = S (String.length a + String.length b)). now rewrite IH.
Qed.

(** The layout [BackupTimeFormat] puts hyphens between the first six fields
    and a dot before the milliseconds. *)
Lemma backupSuffix_dotted (t : Time) : Runtime.backupSuffix t = dottedSuffix t.
Proof.
  unfold Runtime.backupSuffix, GoTime.Format, BackupTimeFormat, dottedSuffix.
  cbn -[GoTime.appendInt GoTime.fracSecond String.append Z.div].
  unfold GoTime.fracSecond. rewrite append_empty_r. reflexivity.
Qed.

(** Checking a property of every number below a bound by running it. *)
Lemma below_bound (P : Z -> bool) (n : Z) :
  forallb P (map Z.of_nat (seq 0 (Z.to_nat n))) = true ->
  forall x, 0 <= x < n -> P x = true.
Proof.
  intros Hall x Hx. rewrite forallb_forall in Hall. apply Hall.
  apply in_map_iff. exists (Z.to_nat x). split; [lia |].
  apply in_seq. lia.
Qed.

Lemma appendInt_width_2 (x : Z) :
  0 <= x <= 99 -> String.length (GoTime.appendInt x 2) = 2%nat.
Proof.
  intros Hx. apply Nat.eqb_eq.
  apply (below_bound
           (fun x => Nat.eqb (String.length (GoTime.appendInt x 2)) 2) 100);
    [vm_compute; reflexivity | lia].
Qed.

Lemma appendInt_width_3 (x : Z) :
  0 <= x <= 999 -> String.length (GoTime.appendInt x 3) = 3%nat.
Proof.
  intros Hx. apply Nat.eqb_eq.
  apply (below_bound
           (fun x => Nat.eqb (String.length (GoTime.appendInt x 3)) 3) 1000);
    [vm_compute; reflexivity | lia].
Qed.

Lemma appendInt_width_4 (x : Z) :
  0 <= x <= 9999 -> String.length (GoTime.appendInt x 4) = 4%nat.
Proof.
  intros Hx. apply Nat.eqb_eq.
  apply (below_bound
           (fun x => Nat.eqb (String.length (GoTime.appendInt x 4)) 4) 10000);
    [vm_compute; reflexivity | lia].
Qed.

Lemma dottedSuffix_length (t : Time) :
  GoTime.wellFormed t -> String.length (dottedSuffix t) = 23%nat.
Proof.
  intros (Hy & Hmo & Hd & Hh & Hmi & Hs & Hn). unfold dottedSuffix.
  assert (Hms : 0 <= t_nanosecond t / 1000000 <= 999).
  { split; [apply Z.div_pos; lia |].
    apply Z.lt_succ_r. apply Z.div_lt_upper_bound; lia. }
  rewrite !length_append.
  rewrite appendInt_width_4 by lia.
  rewrite !appendInt_width_2 by lia.
  rewrite appendInt_width_3 by exact Hms. reflexivity.
Qed.

Lemma append_longer (a b : string) : b <> "" -> a ++ b <> a.
Proof.
  intros Hb Heq. apply (f_equal String.length) in Heq.
  rewrite length_append in Heq. destruct b; [contradiction | cbn in Heq; lia].
Qed.

(** C6 (amended): on a rotation of a file receiver the current file is
    closed and renamed to its name followed by a timestamp of four-digit
    year, month, day, hour, minute and second joined by hyphens and then a
    dot and the three-digit milliseconds; the line being written goes to a
    fresh file at the original path. *)
Theorem rotation_archive_name (r : Receiver) (e : Entry) (w : World)
    (path : string) :
  r_closed r = false ->
  r_out r = Some (os_File path) ->
  Runtime.needsRotate r (Runtime.render r e ++ Runtime.lineTerminator) w
  = true ->
  GoTime.wellFormed (now w) ->
  let backup := path ++ dottedSuffix (now w) in
  let r1 := set_counters 0 0 (t_day (now w)) r in
  Runtime.rotateFile r w
  = (Runtime.openFresh path
       (Runtime.renameFile path backup (Runtime.closeFile path w)), r1)
  /\ (path ∉ openFiles (Runtime.closeFile path w))
  /\ String.length (dottedSuffix (now w)) = 23%nat
  /\ exists w2,
      Runtime.Output r e w
      = (w2,
         Runtime.countWrite
           (byteLen (Runtime.render r e ++ Runtime.lineTerminator)) r1,
         None)
      /\ files w2 !! backup = Some (Runtime.contents w path)
      /\ files w2 !! path = Some (Runtime.decorate r1 e)
      /\ path ∈ openFiles w2.
Proof.
  intros Hopen Hout Hrot Hwf backup r1.
  assert (Hlen : String.length (dottedSuffix (now w)) = 23%nat)
    by now apply dottedSuffix_length.
  assert (Hne : backup <> path).
  { apply append_longer. intros Hnil. rewrite Hnil in Hlen. discriminate. }
  assert (Hrotate : Runtime.rotateFile r w
                    = (Runtime.openFresh path
                         (Runtime.renameFile path backup
                            (Runtime.closeFile path w)), r1)).
  { unfold Runtime.rotateFile. rewrite Hout.
    unfold Runtime.backupFileName. now rewrite backupSuffix_dotted. }
  split; [exact Hrotate |].
  split.
  { cbn. intros [_ Hn]%elem_of_difference. apply Hn.
    now apply elem_of_singleton. }
  split; [exact Hlen |].
  unfold Runtime.Output. rewrite Hopen, Hrot, Hrotate.
  assert (Hout1 : r_out r1 = Some (os_File path)) by exact Hout.
  rewrite Hout1. unfold Runtime.writeSink.
  rewrite decide_True
    by (cbn; apply elem_of_union_l; now apply elem_of_singleton).
  eexists. split; [reflexivity |].
  unfold Runtime.contents.
  cbn [files openFiles Runtime.withFiles Runtime.openFresh
         Runtime.renameFile Runtime.closeFile].
  rewrite lookup_insert_eq.
  split; [| split].
  - rewrite lookup_insert_ne by congruence.
    rewrite lookup_insert_ne by congruence.
    now rewrite lookup_insert_eq.
  - now rewrite lookup_insert_eq.
  - apply elem_of_union_l. now apply elem_of_singleton.
Qed.

Lemma sampleTime_wellFormed : GoTime.wellFormed sampleTime.
Proof. unfold GoTime.wellFormed, sampleTime. cbn. lia. Qed.

(** C6 (as stated) fails: at 2016-07-03 19:22:11.504 the file [aah.log] is
    archived under a name ending in [11.504], with a dot before the
    milliseconds, and not under the name whose fields are all joined by
    hyphens. *)
Lemma rotation_suffix_not_all_hyphens :
  ~ (forall r e w path,
        r_closed r = false ->
        r_out r = Some (os_File path) ->
        Runtime.needsRotate r (Runtime.render r e ++ Runtime.lineTerminator) w
        = true ->
        GoTime.wellFormed (now w) ->
        files (fst (fst (Runtime.Output r e w)))
          !! (path ++ specHyphenJoinedSuffix (now w))
        = Some (Runtime.contents w path)).
Proof.
  intros Hall.
  specialize (Hall sampleFileReceiver sampleEntry yesterdaysWorld
                sampleLogFile eq_refl eq_refl eq_refl sampleTime_wellFormed).
  vm_compute in Hall. discriminate Hall.
Qed.

(** ** Facts about the pattern compiler *)

Lemma FmtFlags_None (name : string) :
  name ∉ FmtFlagNames -> FmtFlags !! name = None.
Proof.
  intros Hout. unfold FmtFlags.
  repeat (rewrite lookup_insert_ne;
          [| intros <-; apply Hout; unfold FmtFlagNames; set_solver]).
  apply lookup_empty.
Qed.

Lemma FmtFlags_Some (name : string) (flag : FmtFlag) :
  FmtFlags !! name = Some flag ->
  name ∈ FmtFlagNames /\ FmtFlagLevel <= flag <= FmtFlagCustom.
Proof.
  unfold FmtFlags, FmtFlagNames, FmtFlagLevel, FmtFlagTime, FmtFlagUTCTime,
    FmtFlagLongfile, FmtFlagShortfile, FmtFlagLine, FmtFlagMessage,
    FmtFlagCustom.
  repeat (rewrite lookup_insert; case_decide;
          [intros [= <-]; subst name; split; [set_solver | lia] |]).
  rewrite lookup_empty. discriminate.
Qed.

Lemma FmtFlags_names (name : string) :
  is_Some (FmtFlags !! name) <-> name ∈ FmtFlagNames.
Proof.
  split.
  - intros [flag Hflag]. now apply FmtFlags_Some in Hflag.
  - intros Hin. destruct (FmtFlags !! name) as [flag |] eqn:Hlook; [eauto |].
    exfalso. unfold FmtFlagNames in Hin.
    repeat (apply elem_of_cons in Hin as [-> | Hin];
            [vm_compute in Hlook; discriminate |]).
    now apply elem_of_nil in Hin.
Qed.

Lemma compileFlag_known (segment : string) (flag : FmtFlag) :
  FmtFlags !! PatternCompiler.flagName segment = Some flag ->
  exists aux, PatternCompiler.compileFlag segment = inl (mkFlagPart flag aux).
Proof.
  unfold PatternCompiler.compileFlag, PatternCompiler.flagName.
  destruct (cut flagValueSeparator segment) as [name aux]. cbn [fst].
  intros ->. eauto.
Qed.

Lemma compileFlag_unknown (segment : string) :
  FmtFlags !! PatternCompiler.flagName segment = None ->
  PatternCompiler.compileFlag segment
  = inr (PatternCompiler.ErrUnrecognizedFlag
           (PatternCompiler.flagName segment)).
Proof.
  unfold PatternCompiler.compileFlag, PatternCompiler.flagName.
  destruct (cut flagValueSeparator segment) as [name aux]. cbn [fst].
  now intros ->.
Qed.

Lemma compileFlags_known (segments : list string) :
  Forall (fun seg => PatternCompiler.flagName seg ∈ FmtFlagNames) segments ->
  exists parts,
    PatternCompiler.compileFlags segments = inl parts
    /\ Forall2
         (fun part seg =>
            FmtFlags !! PatternCompiler.flagName seg = Some (fp_Flag part))
         parts segments.
Proof.
  induction 1 as [| seg rest Hseg _ IH].
  - exists []. split; [reflexivity | constructor].
  - apply FmtFlags_names in Hseg as [flag Hflag].
    destruct (compileFlag_known seg flag Hflag) as [aux Hpart].
    destruct IH as (parts & Hparts & Hall).
    exists (mkFlagPart flag aux :: parts). cbn [PatternCompiler.compileFlags].
    rewrite Hpart, Hparts. split; [reflexivity |].
    constructor; assumption.
Qed.

Lemma compileFlags_unknown (segments : list string) :
  Exists (fun seg => PatternCompiler.flagName seg ∉ FmtFlagNames) segments ->
  exists seg,
    seg ∈ segments
    /\ (PatternCompiler.flagName seg ∉ FmtFlagNames)
    /\ PatternCompiler.compileFlags segments
       = inr (PatternCompiler.ErrUnrecognizedFlag
                (PatternCompiler.flagName seg)).
Proof.
  induction segments as [| seg rest IH]; intros Hex.
  - inversion Hex.
  - cbn [PatternCompiler.compileFlags].
    destruct (FmtFlags !! PatternCompiler.flagName seg) as [flag |] eqn:Hlook.
    + destruct (compileFlag_known seg flag Hlook) as [aux ->].
      assert (Hrest : Exists
                (fun seg => PatternCompiler.flagName seg ∉ FmtFlagNames) rest).
      { inversion Hex as [? ? Hbad | ? ? Hlater]; subst; [| exact Hlater].
        exfalso. apply Hbad. apply FmtFlags_names. eauto. }
      destruct (IH Hrest) as (bad & Hin & Hbad & ->).
      exists bad. split; [now apply list_elem_of_further | now split].
    + rewrite compileFlag_unknown by exact Hlook.
      exists seg. split; [apply list_elem_of_here |]. split; [| reflexivity].
      intros Hin. apply FmtFlags_names in Hin as [flag Hflag]. congruence.
Qed.

(** C5: the table of flag names holds exactly level, time, utctime,
    longfile, shortfile, line, message and custom; compiling the empty
    pattern fails with the error "log format string is empty"; compiling a
    pattern in which some marker introduces a name outside the table fails
    with the unrecognized-flag error for such a name; and a non-empty
    pattern whose names are all in the table compiles, each marker to the
    flag the table gives its name. *)
Theorem pattern_flags_resolved :
  (forall name, is_Some (FmtFlags !! name) <-> name ∈ FmtFlagNames)
  /\ PatternCompiler.parseFlag "" = inr ErrFormatStringEmpty
  /\ ErrFormatStringEmpty = "log format string is empty"
  /\ (forall pattern name,
        name ∈ PatternCompiler.flagNames pattern ->
        name ∉ FmtFlagNames ->
        exists bad,
          bad ∈ PatternCompiler.flagNames pattern
          /\ (bad ∉ FmtFlagNames)
          /\ PatternCompiler.parseFlag pattern
             = inr (PatternCompiler.ErrUnrecognizedFlag bad))
  /\ (forall pattern,
        pattern <> "" ->
        Forall (fun name => name ∈ FmtFlagNames)
          (PatternCompiler.flagNames pattern) ->
        exists parts,
          PatternCompiler.parseFlag pattern
          = inl (app
                   (PatternCompiler.literal
                      (hd "" (split flagSeparator pattern)))
                   parts)
          /\ Forall2
               (fun part seg =>
                  FmtFlags !! PatternCompiler.flagName seg
                  = Some (fp_Flag part))
               parts (PatternCompiler.markers pattern)).
Proof.
  split; [exact FmtFlags_names |].
  split; [reflexivity |]. split; [reflexivity |]. split.
  - intros pattern name Hin Hout.
    unfold PatternCompiler.flagNames in Hin.
    apply list_elem_of_fmap in Hin as (seg & -> & Hseg).
    destruct (compileFlags_unknown (PatternCompiler.markers pattern))
      as (bad & Hbad_in & Hbad & Hfail).
    { apply Exists_exists. exists seg. split; [exact Hseg | exact Hout]. }
    exists (PatternCompiler.flagName bad). split; [| split; [exact Hbad |]].
    + unfold PatternCompiler.flagNames. apply list_elem_of_fmap. eauto.
    + unfold PatternCompiler.parseFlag.
      destruct (String.eqb pattern "") eqn:Hempty.
      * apply String.eqb_eq in Hempty. subst pattern.
        now apply elem_of_nil in Hseg.
      * now rewrite Hfail.
  - intros pattern Hne Hall.
    destruct (compileFlags_known (PatternCompiler.markers pattern))
      as (parts & Hparts & Hres).
    { unfold PatternCompiler.flagNames in Hall.
      now apply Forall_fmap in Hall. }
    exists parts. split; [| exact Hres].
    unfold PatternCompiler.parseFlag.
    apply String.eqb_neq in Hne. now rewrite Hne, Hparts.
Qed.


(** ** The theorems at work on the stand-ins *)

(** Membership in a list of literals, and its negation, by running through
    the list. *)
Ltac outside_literals :=
  let Hin := fresh "Hin" in
  intros Hin;
  repeat (apply elem_of_cons in Hin as [Hin | Hin]; [discriminate Hin |]);
  now apply elem_of_nil in Hin.

Ltac among_literals :=
  repeat first [apply list_elem_of_here | apply list_elem_of_further].

Lemma sampleHost_ToUpper :
  forall s, isASCII s = true -> @ToUpper sampleHost s = asciiToUpper s.
Proof. intros s _. reflexivity. Defined.

Lemma sampleHost_StrIsEmpty :
  forall s, isASCII s = true -> @StrIsEmpty sampleHost s = onlySpaces s.
Proof. intros s _. reflexivity. Defined.

(** A 4096 MB file receiver is refused in [lines] mode, by the constructor
    and by [New]; a 2048 MB one in [size] mode is built. *)
Lemma rotate_size_cap_witness :
  @newFileReceiver sampleHost fileConfigOverCap "FILE" LevelDebug []
    sampleWorld
  = (sampleWorld, (None, Some ErrMaxFileSize))
  /\ (exists e,
        @New sampleHost
          "receiver = FILE; rotate.mode = lines; rotate.size = 4096"
          sampleWorld
        = (sampleWorld, (None, Some e))
        /\ e = ErrMaxFileSize)
  /\ (exists r,
        fst (snd (@newFileReceiver sampleHost fileConfigAtCap "FILE"
                    LevelDebug [] sampleWorld))
        = Some r
        /\ r_maxSize r = 2147483648).
Proof.
  destruct (@rotate_size_cap sampleHost) as (Hover & Hnew & Hat).
  split; [| split].
  - apply Hover. vm_compute. reflexivity.
  - destruct (Hnew "receiver = FILE; rotate.mode = lines; rotate.size = 4096"
                fileConfigOverCap "FILE" sampleWorld)
      as (e & He & Hwhich);
      [vm_compute; reflexivity | vm_compute; reflexivity | reflexivity
      | vm_compute; reflexivity |].
    exists e. split; [exact He |].
    apply Hwhich;
      [reflexivity | vm_compute; discriminate
      | eexists; vm_compute; reflexivity].
  - destruct (Hat fileConfigAtCap "FILE" LevelDebug [] sampleWorld
                (fst (fst (sampleOpenFile
                             (@fileReceiverLiteral sampleHost fileConfigAtCap
                                "FILE" LevelDebug []) sampleWorld)))
                (snd (fst (sampleOpenFile
                             (@fileReceiverLiteral sampleHost fileConfigAtCap
                                "FILE" LevelDebug []) sampleWorld))))
      as (r & Hr & Hsize);
      [vm_compute; reflexivity | vm_compute; reflexivity |].
    exists r. split; [now rewrite Hr |].
    rewrite Hsize by (vm_compute; reflexivity). reflexivity.
Defined.

(** The four refusals, on four configurations. *)
Lemma New_logger_or_error_witness :
  (exists e, @New sampleHost "level = INFO" sampleWorld
             = (sampleWorld, (None, Some e)))
  /\ (exists e, @New sampleHost "receiver = SYSLOG" sampleWorld
                = (sampleWorld, (None, Some e)))
  /\ (exists e, @New sampleHost "receiver = CONSOLE; level = LOUD" sampleWorld
                = (sampleWorld, (None, Some e)))
  /\ (exists e, @New sampleHost "receiver = CONSOLE; pattern = %when"
                  sampleWorld
                = (sampleWorld, (None, Some e))).
Proof.
  destruct (@New_logger_or_error sampleHost) as [_ Hrefused].
  split; [| split; [| split]].
  - apply (Hrefused _ noReceiverConfig); [vm_compute; reflexivity |].
    left. vm_compute. reflexivity.
  - apply (Hrefused _ syslogConfig); [vm_compute; reflexivity |].
    right; left. exists "SYSLOG".
    split; [vm_compute; reflexivity |]. split; vm_compute; discriminate.
  - apply (Hrefused _ loudConfig); [vm_compute; reflexivity |].
    right; right; left. vm_compute. reflexivity.
  - apply (Hrefused _ badPatternConfig); [vm_compute; reflexivity |].
    right; right; right. eexists. vm_compute. reflexivity.
Defined.

(** A text of blanks and a tab is an empty configuration. *)
Lemma New_empty_config_witness :
  @New sampleHost (String " " (String (ascii_of_nat 9) " ")) sampleWorld
  = (sampleWorld, (None, Some (errors_New "logger config is empty"))).
Proof.
  apply (@New_empty_config sampleHost sampleHost_StrIsEmpty).
  right. vm_compute. reflexivity.
Defined.

(** The defaults on the console configuration and on file configurations
    without a mode and without a size. *)
Lemma construction_defaults_witness :
  (exists r, @New sampleHost "receiver = CONSOLE" sampleWorld
             = (sampleWorld, (Some r, None))
             /\ r_level r = LevelDebug)
  /\ (exists r, fst (snd (@newFileReceiver sampleHost fileConfig "FILE"
                            LevelDebug [] sampleWorld)) = Some r
                /\ r_rotate r = "daily")
  /\ (exists r, fst (snd (@newFileReceiver sampleHost fileConfigSizeMode
                            "FILE" LevelDebug [] sampleWorld)) = Some r
                /\ r_maxSize r = 104857600).
Proof.
  destruct (@construction_defaults sampleHost sampleHost_ToUpper)
    as (Hlevel & _ & _ & Hmode & Hsize).
  split; [| split].
  - apply (Hlevel _ consoleConfig "CONSOLE");
      try (vm_compute; reflexivity).
    eexists. vm_compute. reflexivity.
  - eexists. rewrite (Hmode fileConfig "FILE" LevelDebug [] sampleWorld
                        (fst (fst (sampleOpenFile
                                     (@fileReceiverLiteral sampleHost
                                        fileConfig "FILE" LevelDebug [])
                                     sampleWorld)))
                        (snd (fst (sampleOpenFile
                                     (@fileReceiverLiteral sampleHost
                                        fileConfig "FILE" LevelDebug [])
                                     sampleWorld))));
      [split; reflexivity | vm_compute; discriminate | reflexivity
      | reflexivity].
  - eexists. rewrite (Hsize fileConfigSizeMode "FILE" LevelDebug []
                        sampleWorld
                        (fst (fst (sampleOpenFile
                                     (@fileReceiverLiteral sampleHost
                                        fileConfigSizeMode "FILE" LevelDebug
                                        []) sampleWorld)))
                        (snd (fst (sampleOpenFile
                                     (@fileReceiverLiteral sampleHost
                                        fileConfigSizeMode "FILE" LevelDebug
                                        []) sampleWorld))));
      [split; reflexivity | reflexivity | reflexivity | reflexivity].
Defined.

(** Lower-case and mixed-case names reach their levels. *)
Lemma levelByName_String_table_witness :
  @levelByName sampleHost "warn" = @levelByName sampleHost "WaRn"
  /\ @levelByName sampleHost (Level_String LevelWarn) = LevelWarn
  /\ @levelByName sampleHost "LOUD" = LevelUnknown
  /\ Level_String LevelUnknown = "Unknown".
Proof.
  destruct (@levelByName_String_table sampleHost sampleHost_ToUpper)
    as (_ & Hcase & Hround & Hname & Hlevel).
  split; [| split; [| split]].
  - apply Hcase; reflexivity.
  - apply Hround. vm_compute. split; discriminate.
  - apply Hname. change (@ToUpper sampleHost "LOUD") with "LOUD".
    outside_literals.
  - apply Hlevel. vm_compute. intros [_ Hle]. now apply Hle.
Defined.

(** The rotation of [aah.log] on 2016-07-03 at 19:22:11.504. *)
Lemma rotation_archive_name_witness :
  exists w2 r2,
    Runtime.Output sampleFileReceiver sampleEntry yesterdaysWorld
    = (w2, r2, None)
    /\ files w2 !! "aah.log2016-07-03-19-22-11.504"
       = Some ("hello" ++ Runtime.lineTerminator).
Proof.
  destruct (rotation_archive_name sampleFileReceiver sampleEntry
              yesterdaysWorld sampleLogFile eq_refl eq_refl eq_refl
              sampleTime_wellFormed)
    as (_ & _ & _ & w2 & Hout & Hbackup & _).
  exists w2. eexists. split; [exact Hout |]. exact Hbackup.
Defined.

(** An [Info] call passes a [Debug] threshold and a [Trace] call does not. *)
Lemma level_filtering_witness :
  Runtime.Info sampleFileReceiver "hello" [] None yesterdaysWorld
  = Runtime.Output sampleFileReceiver
      (Runtime.newEntry sampleFileReceiver LevelInfo "hello" [] None
         yesterdaysWorld) yesterdaysWorld
  /\ Runtime.Trace sampleFileReceiver "hello" [] None yesterdaysWorld
     = (yesterdaysWorld, sampleFileReceiver, None).
Proof.
  destruct level_filtering as [_ Hfilter].
  split.
  - apply (Hfilter LevelInfo). vm_compute. discriminate.
  - apply (Hfilter LevelTrace). reflexivity.
Defined.

(** The default pattern compiles, and [%when] does not. *)
Lemma pattern_flags_resolved_witness :
  (exists parts, PatternCompiler.parseFlag DefaultPattern = inl parts)
  /\ (exists bad, PatternCompiler.parseFlag "%level:-5 %when %message"
                  = inr (PatternCompiler.ErrUnrecognizedFlag bad)).
Proof.
  destruct pattern_flags_resolved as (_ & _ & _ & Hbad & Hgood).
  split.
  - destruct (Hgood DefaultPattern) as (parts & Hparts & _);
      [discriminate | |].
    { change (PatternCompiler.flagNames DefaultPattern)
        with ["time"; "level"; "custom"; "message"].
      unfold FmtFlagNames. repeat constructor; among_literals. }
    eexists. exact Hparts.
  - destruct (Hbad "%level:-5 %when %message" "when ")
      as (bad & _ & _ & Hfail);
      [| unfold FmtFlagNames; outside_literals |].
    { change (PatternCompiler.flagNames "%level:-5 %when %message")
        with ["level"; "when "; "message"].
      among_literals. }
    exists bad. exact Hfail.
Defined.

(** ** More facts about levels and construction *)

Lemma level_tables_agree (name : string) (level : Level) :
  levelNameToLevel !! name = Some level
  <-> levelToLevelName !! level = Some name.
Proof.
  unfold levelNameToLevel, levelToLevelName, LevelError, LevelWarn,
    LevelInfo, LevelDebug, LevelTrace.
  split.
  - repeat (rewrite lookup_insert; case_decide;
            [intros [= <-]; subst name; reflexivity |]).
    rewrite lookup_empty. discriminate.
  - repeat (rewrite lookup_insert; case_decide;
            [intros [= <-]; subst level; reflexivity |]).
    rewrite lookup_empty. discriminate.
Qed.

Lemma wrapInt_id (z : Z) : - 2 ^ 63 <= z < 2 ^ 63 -> wrapInt z = z.
Proof.
  intros Hz. unfold wrapInt.
  rewrite Z.mod_small by lia. lia.
Qed.

Lemma levelNameToLevel_range (key : string) (level : Level) :
  levelNameToLevel !! key = Some level -> LevelError <= level <= LevelTrace.
Proof. intros Hlook. now apply levelNameToLevel_Some in Hlook. Qed.

Section MoreConstructionFacts.

Context `{host : Host}.

(** X1: the two level tables are inverse to each other, so the name of the
    level found for a name is that name in upper case, and the level found
    is always one of the six constants. *)
Theorem level_tables_inverse :
  (forall name level,
      levelNameToLevel !! name = Some level
      <-> levelToLevelName !! level = Some name)
  /\ (forall name,
        levelByName name <> LevelUnknown ->
        Level_String (levelByName name) = ToUpper name)
  /\ (forall name, LevelError <= levelByName name <= LevelUnknown).
Proof.
  split; [exact level_tables_agree |]. split.
  - intros name. unfold levelByName, Level_String.
    destruct (levelNameToLevel !! ToUpper name) as [level |] eqn:Hlook;
      [| congruence].
    intros _. apply level_tables_agree in Hlook. now rewrite Hlook.
  - intros name. unfold levelByName.
    destruct (levelNameToLevel !! ToUpper name) as [level |] eqn:Hlook.
    + apply levelNameToLevel_Some in Hlook as [_ Hr].
      unfold LevelError, LevelTrace, LevelUnknown in *. lia.
    + unfold LevelError, LevelUnknown. lia.
Qed.

(** X2: [New] reports the first check that fails, in this order: the
    parser's error as it is; the missing [receiver] key; the unrecognized
    level, quoted as written in the configuration, whatever the pattern and
    the receiver are; the pattern compiler's error as it is, whatever the
    receiver is; and the unsupported receiver last.  In each case the world
    is as it was. *)
Theorem New_error_precedence (configStr : string) (w : World) :
  StrIsEmpty configStr = false ->
  (forall err, ParseString configStr = inr err ->
     New configStr w = (w, (None, Some err)))
  /\ (forall cfg, ParseString configStr = inl cfg ->
      (Config_String cfg "receiver" = None ->
       New configStr w
       = (w, (None, Some (errors_New "receiver configuration is required"))))
      /\ (forall receiverType,
            Config_String cfg "receiver" = Some receiverType ->
            let levelName := StringDefault cfg "level" "DEBUG" in
            let pattern := StringDefault cfg "pattern" DefaultPattern in
            (levelByName levelName = LevelUnknown ->
             New configStr w
             = (w, (None, Some ("unrecognized log level: " ++ levelName))))
            /\ (levelByName levelName <> LevelUnknown ->
                (forall err, parseFlag pattern = inr err ->
                   New configStr w = (w, (None, Some err)))
                /\ (forall flags, parseFlag pattern = inl flags ->
                    ToUpper receiverType <> "CONSOLE" ->
                    ToUpper receiverType <> "FILE" ->
                    New configStr w
                    = (w, (None,
                           Some (errors_New "unsupported receiver"))))))).
Proof.
  intros Hne. unfold New. rewrite Hne. split.
  - now intros err ->.
  - intros cfg ->. split; [now intros -> |].
    intros receiverType Hrecv. rewrite Hrecv. cbv zeta. split.
    + intros Hunknown. now rewrite Hunknown.
    + intros Hknown. apply Z.eqb_neq in Hknown.
      rewrite Hknown. split.
      * now intros err ->.
      * intros flags -> Hc Hf. apply String.eqb_neq in Hc, Hf.
        now rewrite Hc, Hf.
Qed.

(** X3: [New] returns a logger exactly when the text is not empty, parses,
    names a receiver, has a known level and a pattern that compiles, the
    receiver type is a logger, and the receiver is CONSOLE or it is FILE
    with a rotation size of at most 2048 and a file that opens. *)
Theorem New_succeeds_iff (configStr : string) (w : World) :
  (exists w1 r, New configStr w = (w1, (Some r, None)))
  <-> StrIsEmpty configStr = false
      /\ receiverIsLogger = true
      /\ exists cfg receiverType flags,
          ParseString configStr = inl cfg
          /\ Config_String cfg "receiver" = Some receiverType
          /\ levelByName (StringDefault cfg "level" "DEBUG") <> LevelUnknown
          /\ parseFlag (StringDefault cfg "pattern" DefaultPattern)
             = inl flags
          /\ (ToUpper receiverType = "CONSOLE"
              \/ (ToUpper receiverType = "FILE"
                  /\ IntDefault cfg "rotate.size" 100 <= 2048
                  /\ exists w1 r1,
                      openFile
                        (fileReceiverLiteral cfg (ToUpper receiverType)
                           (levelByName (StringDefault cfg "level" "DEBUG"))
                           flags) w
                      = (w1, r1, None))).
Proof.
  unfold New. split.
  - intros (w1 & r & Hnew).
    destruct (StrIsEmpty configStr); [discriminate |].
    destruct (ParseString configStr) as [cfg | err]; [| discriminate].
    destruct (Config_String cfg "receiver") as [receiverType |] eqn:Hrecv;
      [| discriminate].
    destruct (levelByName _ =? LevelUnknown) eqn:Hlevel; [discriminate |].
    apply Z.eqb_neq in Hlevel.
    destruct (parseFlag _) as [flags | err] eqn:Hflags; [| discriminate].
    destruct (String.eqb (ToUpper receiverType) "CONSOLE") eqn:Hc.
    { apply String.eqb_eq in Hc.
      destruct receiverIsLogger; [| discriminate].
      split; [reflexivity |]. split; [reflexivity |].
      exists cfg, receiverType, flags. repeat split; auto. }
    destruct (String.eqb (ToUpper receiverType) "FILE") eqn:Hf;
      [| discriminate].
    apply String.eqb_eq in Hf.
    destruct (Z_lt_le_dec 2048 (IntDefault cfg "rotate.size" 100))
      as [Hbig | Hsmall].
    { rewrite newFileReceiver_over_cap in Hnew by exact Hbig.
      discriminate. }
    rewrite newFileReceiver_within_cap in Hnew by exact Hsmall.
    destruct (openFile _ w) as [[w2 r2] [e |]] eqn:Hopen; [discriminate |].
    destruct receiverIsLogger; [| discriminate].
    split; [reflexivity |]. split; [reflexivity |].
    exists cfg, receiverType, flags. repeat split; auto.
    right. repeat split; auto. now exists w2, r2.
  - intros (-> & -> & cfg & receiverType & flags & -> & -> & Hlevel
            & -> & Hkind).
    apply Z.eqb_neq in Hlevel. rewrite Hlevel.
    destruct Hkind as [-> | (Hf & Hsmall & w1 & r1 & Hopen)].
    + cbn [String.eqb Ascii.eqb Bool.eqb]. unfold newConsoleReceiver.
      now eexists _, _.
    + rewrite Hf in *. cbn [String.eqb Ascii.eqb Bool.eqb].
      rewrite newFileReceiver_within_cap by exact Hsmall.
      rewrite Hopen. now eexists _, _.
Qed.

(** X4: a logger that [New] builds for a CONSOLE receiver leaves the world
    as it was, writes to the standard error stream, carries the upper-cased
    type, a level between Error and Trace, the compiled pattern, zeroed
    statistics and no rotation; the rotation keys of the configuration,
    [rotate.size] included, are not read. *)
Theorem New_console_logger (configStr : string) (cfg : Config)
    (receiverType : string) (w w1 : World) (r : Receiver) :
  New configStr w = (w1, (Some r, None)) ->
  ParseString configStr = inl cfg ->
  Config_String cfg "receiver" = Some receiverType ->
  ToUpper receiverType = "CONSOLE" ->
  w1 = w
  /\ r_Type r = "CONSOLE"
  /\ r_out r = Some os_Stderr
  /\ r_level r = levelByName (StringDefault cfg "level" "DEBUG")
  /\ LevelError <= r_level r <= LevelTrace
  /\ parseFlag (StringDefault cfg "pattern" DefaultPattern)
     = inl (r_Flags r)
  /\ r_stats r = zeroStats
  /\ r_closed r = false
  /\ r_rotate r = "" /\ r_maxSize r = 0 /\ r_maxLines r = 0
  /\ r_isUTC r = false.
Proof.
  intros Hnew Hparse Hrecv Hcons. unfold New in Hnew.
  rewrite Hparse, Hrecv, Hcons in Hnew.
  destruct (StrIsEmpty configStr); [discriminate |].
  destruct (levelByName _ =? LevelUnknown) eqn:Hlevel; [discriminate |].
  apply Z.eqb_neq in Hlevel.
  destruct (parseFlag _) as [flags | err]; [| discriminate].
  cbn [String.eqb Ascii.eqb Bool.eqb] in Hnew.
  unfold newConsoleReceiver in Hnew.
  destruct receiverIsLogger; [| discriminate].
  injection Hnew as <- <-. cbn.
  repeat split; try reflexivity.
  - unfold levelByName in *.
    destruct (levelNameToLevel !! _) as [lv |] eqn:Hlook;
      [now apply levelNameToLevel_range in Hlook | contradiction].
  - unfold levelByName in *.
    destruct (levelNameToLevel !! _) as [lv |] eqn:Hlook;
      [now apply levelNameToLevel_range in Hlook | contradiction].
Qed.

(** X5: in [size] mode, a [rotate.size] between [-2^43] and 2048 gives a
    threshold of exactly that many times 1048576 bytes, with no
    wrap-around and at most 2147483648; zero and negative sizes pass the
    test, for there is no lower bound. *)
Theorem rotate_size_threshold (cfg : Config) (receiverType : string)
    (level : Level) (flags : list FlagPart) (w w1 : World) (r1 : Receiver) :
  StringDefault cfg "rotate.mode" "daily" = "size" ->
  - 2 ^ 43 <= IntDefault cfg "rotate.size" 100 <= 2048 ->
  openFile (fileReceiverLiteral cfg receiverType level flags) w
  = (w1, r1, None) ->
  newFileReceiver cfg receiverType level flags w
  = (w1,
     (Some (set_maxSize (IntDefault cfg "rotate.size" 100 * 1048576)
              (set_rotate "size" r1)),
      None))
  /\ IntDefault cfg "rotate.size" 100 * 1048576 <= 2147483648.
Proof.
  intros Hmode Hsize Hopen.
  rewrite newFileReceiver_within_cap by lia.
  rewrite Hopen, Hmode. cbv zeta. cbn [String.eqb Ascii.eqb Bool.eqb].
  split; [| lia].
  unfold mulInt.
  rewrite (wrapInt_id (IntDefault cfg "rotate.size" 100 * 1024)) by lia.
  rewrite wrapInt_id by lia.
  do 4 f_equal. lia.
Qed.

(** X6: the rotation mode is compared as written: [lines] installs the
    line threshold of [rotate.lines] and leaves the size threshold alone,
    and a mode that is none of [daily], [lines] and [size], another
    spelling such as [DAILY] included, is accepted without an error and
    installs nothing. *)
Theorem rotate_mode_as_written (cfg : Config) (receiverType : string)
    (level : Level) (flags : list FlagPart) (w w1 : World) (r1 : Receiver)
    (mode : string) :
  IntDefault cfg "rotate.size" 100 <= 2048 ->
  Config_String cfg "rotate.mode" = Some mode ->
  openFile (fileReceiverLiteral cfg receiverType level flags) w
  = (w1, r1, None) ->
  (mode = "lines" ->
   newFileReceiver cfg receiverType level flags w
   = (w1,
      (Some (set_maxLines (IntDefault cfg "rotate.lines" 0)
               (set_rotate "lines" r1)),
       None)))
  /\ (mode <> "daily" -> mode <> "lines" -> mode <> "size" ->
      newFileReceiver cfg receiverType level flags w
      = (w1, (Some (set_rotate mode r1), None))).
Proof.
  intros Hsize Hmode Hopen.
  rewrite newFileReceiver_within_cap by exact Hsize.
  rewrite Hopen. unfold StringDefault. rewrite Hmode. cbv zeta. split.
  - intros ->. reflexivity.
  - intros Hd Hl Hs. apply String.eqb_neq in Hd, Hl, Hs.
    now rewrite Hd, Hl, Hs.
Qed.

End MoreConstructionFacts.

(** ** Facts about trimming and splitting *)

Lemma trimLeftASCII_first (s : string) :
  firstByteIsSpace (trimLeftASCII s) = false.
Proof.
  induction s as [| c s IH]; [reflexivity |].
  cbn [trimLeftASCII]. destruct (isSpaceByte c) eqn:Hc; [exact IH |].
  exact Hc.
Qed.

Lemma trimRightASCII_first (s : string) :
  firstByteIsSpace s = false -> firstByteIsSpace (trimRightASCII s) = false.
Proof.
  destruct s as [| c s]; [reflexivity |].
  cbn [firstByteIsSpace trimRightASCII]. intros Hc.
  destruct (trimRightASCII s); [rewrite Hc |]; exact Hc.
Qed.

Lemma trimRightASCII_last (s : string) :
  lastByteIsSpace (trimRightASCII s) = false.
Proof.
  induction s as [| c s IH]; [reflexivity |].
  cbn [trimRightASCII].
  destruct (trimRightASCII s) as [| d t].
  - destruct (isSpaceByte c) eqn:Hc; [reflexivity | exact Hc].
  - exact IH.
Qed.

Lemma trimLeftASCII_hasByte (b : ascii) (s : string) :
  hasByte b s = false -> hasByte b (trimLeftASCII s) = false.
Proof.
  induction s as [| c s IH]; [reflexivity |].
  cbn [hasByte trimLeftASCII]. intros [Hc Hs]%orb_false_elim.
  destruct (isSpaceByte c); [now apply IH |].
  cbn [hasByte]. now rewrite Hc, Hs.
Qed.

Lemma trimRightASCII_hasByte (b : ascii) (s : string) :
  hasByte b s = false -> hasByte b (trimRightASCII s) = false.
Proof.
  induction s as [| c s IH]; [reflexivity |].
  cbn [hasByte trimRightASCII]. intros [Hc Hs]%orb_false_elim.
  specialize (IH Hs).
  destruct (trimRightASCII s) as [| d t].
  - destruct (isSpaceByte c); [reflexivity |].
    cbn [hasByte]. now rewrite Hc.
  - cbn [hasByte] in *. now rewrite Hc, IH.
Qed.

Lemma trimLeftASCII_empty (s : string) :
  trimLeftASCII s = "" <-> onlySpaces s = true.
Proof.
  induction s as [| c s IH]; [easy |].
  cbn [trimLeftASCII onlySpaces].
  destruct (isSpaceByte c); [exact IH | easy].
Qed.

Lemma trimRightASCII_empty (s : string) :
  trimRightASCII s = "" <-> onlySpaces s = true.
Proof.
  induction s as [| c s IH]; [easy |].
  cbn [trimRightASCII onlySpaces].
  destruct (trimRightASCII s) as [| d t].
  - destruct (isSpaceByte c); [cbn; tauto |].
    split; [discriminate | cbn; discriminate].
  - split; [discriminate |].
    intros [_ Hs]%andb_prop. apply IH in Hs. discriminate.
Qed.

Lemma trimSpaceASCII_empty (s : string) :
  trimSpaceASCII s = "" <-> onlySpaces s = true.
Proof.
  unfold trimSpaceASCII. split.
  - intros Hall. apply trimRightASCII_empty in Hall.
    apply trimLeftASCII_empty.
    pose proof (trimLeftASCII_first s) as Hfirst.
    destruct (trimLeftASCII s) as [| c t]; [reflexivity |].
    cbn in Hall, Hfirst. rewrite Hfirst in Hall. discriminate.
  - intros Hs. apply trimLeftASCII_empty in Hs. now rewrite Hs.
Qed.

Lemma isASCII_substring (s : string) :
  isASCII s = true -> forall n, isASCII (String.substring 0 n s) = true.
Proof.
  induction s as [| c s IH]; intros Hs n.
  - now destruct n.
  - cbn [isASCII] in Hs. apply andb_prop in Hs as [Hc Hrest].
    destruct n as [| n]; [reflexivity |].
    cbn [String.substring isASCII]. now rewrite Hc, IH.
Qed.

Lemma substring_hasByte (sep : ascii) (s : string) :
  forall index, indexByte sep s = Some index ->
    hasByte sep (String.substring 0 index s) = false.
Proof.
  induction s as [| c s IH]; intros index; [discriminate |].
  cbn [indexByte]. destruct (Ascii.eqb c sep) eqn:Hc.
  - now intros [= <-].
  - destruct (indexByte sep s) as [i |]; [| discriminate].
    intros [= <-]. cbn [String.substring hasByte]. rewrite Hc.
    now apply IH.
Qed.

Lemma indexByte_None_hasByte (sep : ascii) (s : string) :
  indexByte sep s = None -> hasByte sep s = false.
Proof.
  induction s as [| c s IH]; [reflexivity |].
  cbn [indexByte hasByte]. destruct (Ascii.eqb c sep); [discriminate |].
  destruct (indexByte sep s); [discriminate |]. intros _. now apply IH.
Qed.

Lemma firstElement_hasByte (sep : ascii) (s : string) :
  hasByte sep (firstElement sep s) = false.
Proof.
  unfold firstElement. destruct (indexByte sep s) as [index |] eqn:Hi.
  - now apply substring_hasByte.
  - now apply indexByte_None_hasByte.
Qed.

Lemma firstElement_isASCII (sep : ascii) (s : string) :
  isASCII s = true -> isASCII (firstElement sep s) = true.
Proof.
  intros Hs. unfold firstElement.
  destruct (indexByte sep s); [now apply isASCII_substring | exact Hs].
Qed.

Lemma firstElement_split (sep : ascii) (s : string) :
  s = firstElement sep s
  \/ exists rest, s = firstElement sep s ++ String sep rest.
Proof.
  unfold firstElement. destruct (indexByte sep s) as [index |] eqn:Hi;
    [right | now left].
  revert index Hi. induction s as [| c s IH]; intros index; [discriminate |].
  cbn [indexByte]. destruct (Ascii.eqb c sep) eqn:Hc.
  - intros [= <-]. apply Ascii.eqb_eq in Hc. subst c. now exists s.
  - destruct (indexByte sep s) as [i |]; [| discriminate].
    intros [= <-]. destruct (IH i eq_refl) as [rest Hrest].
    exists rest. cbn [String.substring].
    change (String c s = String c (substring 0 i s ++ String sep rest)).
    now rewrite <- Hrest.
Qed.

(** ** Facts about requests *)

Section RequestFacts.

Context `{env : Ahttp.Env}.

(** On ASCII text [strings.TrimSpace] removes the leading and trailing
    ASCII white space, and [ess.IsStrEmpty] holds exactly of the texts made
    of white space. *)
Hypothesis TrimSpace_ascii :
  forall s, isASCII s = true -> Ahttp.TrimSpace s = trimSpaceASCII s.
Hypothesis IsStrEmpty_ascii :
  forall s, isASCII s = true -> Ahttp.IsStrEmpty s = onlySpaces s.

(** X7: when the X-Forwarded-For header carries ASCII text that is not
    blank, the client address is its first comma-separated element without
    the surrounding white space: it holds no comma and no white space at
    either end, it is a part of the header and not of X-Real-IP or of the
    remote address, and it is empty exactly when that first element is
    blank. *)
Theorem clientIP_forwarded (req : Ahttp.RawRequest) :
  let fwdFor :=
    Ahttp.Header_Get (Ahttp.raw_Header req) Ahttp.HeaderXForwardedFor in
  isASCII fwdFor = true ->
  onlySpaces fwdFor = false ->
  Ahttp.clientIP req = trimSpaceASCII (firstElement ","%char fwdFor)
  /\ hasByte ","%char (Ahttp.clientIP req) = false
  /\ firstByteIsSpace (Ahttp.clientIP req) = false
  /\ lastByteIsSpace (Ahttp.clientIP req) = false
  /\ (Ahttp.clientIP req = "" <->
      onlySpaces (firstElement ","%char fwdFor) = true)
  /\ (fwdFor = firstElement ","%char fwdFor
      \/ exists rest,
          fwdFor = firstElement ","%char fwdFor ++ String ","%char rest).
Proof using TrimSpace_ascii IsStrEmpty_ascii.
  intros fwdFor Hascii Hblank.
  assert (Hip : Ahttp.clientIP req
                = trimSpaceASCII (firstElement ","%char fwdFor)).
  { unfold Ahttp.clientIP. fold fwdFor.
    rewrite IsStrEmpty_ascii, Hblank by exact Hascii. cbn [negb].
    unfold firstElement.
    destruct (indexByte ","%char fwdFor) as [index |].
    - apply TrimSpace_ascii. now apply isASCII_substring.
    - now apply TrimSpace_ascii. }
  rewrite Hip. split; [reflexivity |].
  split; [| split; [| split; [| split]]].
  - unfold trimSpaceASCII. apply trimRightASCII_hasByte.
    apply trimLeftASCII_hasByte. apply firstElement_hasByte.
  - unfold trimSpaceASCII. apply trimRightASCII_first.
    apply trimLeftASCII_first.
  - unfold trimSpaceASCII. apply trimRightASCII_last.
  - apply trimSpaceASCII_empty.
  - apply firstElement_split.
Qed.

(** X8: when the header map has no X-Forwarded-For and no X-Real-IP entry,
    the client address is the host part of the remote address without the
    surrounding white space, and the empty string when the remote address
    does not split into host and port. *)
Theorem clientIP_remote_addr (req : Ahttp.RawRequest) :
  Ahttp.raw_Header req
    !! Ahttp.CanonicalMIMEHeaderKey Ahttp.HeaderXForwardedFor = None ->
  Ahttp.raw_Header req
    !! Ahttp.CanonicalMIMEHeaderKey Ahttp.HeaderXRealIP = None ->
  Ahttp.clientIP req
  = match Ahttp.SplitHostPort (Ahttp.raw_RemoteAddr req) with
    | inl (remoteHost, _) => Ahttp.TrimSpace remoteHost
    | inr _ => ""
    end.
Proof using IsStrEmpty_ascii.
  intros Hfwd Hreal. unfold Ahttp.clientIP, Ahttp.Header_Get.
  rewrite Hfwd, Hreal.
  rewrite (IsStrEmpty_ascii "") by reflexivity. reflexivity.
Qed.

(** X9: [ParseRequest] assigns the exported fields only: a request taken
    from the pool without [Reset] keeps the locale, content type, accepted
    content type and accepted encoding negotiated for the earlier request,
    and the getters serve them for the new one; after [Reset] the getters
    negotiate from the new request. *)
Theorem ParseRequest_keeps_negotiated (raw : Ahttp.RawRequest)
    (req : Ahttp.Request) :
  (forall v, Ahttp.req_contentType req = Some v ->
     Ahttp.Request_ContentType (Ahttp.ParseRequest raw req)
     = (Ahttp.ParseRequest raw req, Some v))
  /\ (forall v, Ahttp.req_acceptContentType req = Some v ->
       Ahttp.AcceptContentType (Ahttp.ParseRequest raw req)
       = (Ahttp.ParseRequest raw req, Some v))
  /\ (forall v, Ahttp.req_acceptEncoding req = Some v ->
       Ahttp.AcceptEncoding (Ahttp.ParseRequest raw req)
       = (Ahttp.ParseRequest raw req, Some v))
  /\ (forall v, Ahttp.req_locale req = Some v ->
       Ahttp.Request_Locale (Ahttp.ParseRequest raw req)
       = (Ahttp.ParseRequest raw req, Some v))
  /\ snd (Ahttp.Request_ContentType
            (Ahttp.ParseRequest raw (Ahttp.Reset req)))
     = Ahttp.ParseContentType (Some raw)
  /\ snd (Ahttp.AcceptContentType
            (Ahttp.ParseRequest raw (Ahttp.Reset req)))
     = Ahttp.NegotiateContentType (Some raw)
  /\ snd (Ahttp.Request_Locale (Ahttp.ParseRequest raw (Ahttp.Reset req)))
     = Ahttp.NegotiateLocale (Some raw)
  /\ snd (Ahttp.AcceptEncoding (Ahttp.ParseRequest raw (Ahttp.Reset req)))
     = match Ahttp.ParseAcceptEncoding (Some raw) with
       | Some specs => Ahttp.MostQualified specs
       | None => None
       end.
Proof using Type.
  repeat split.
  - intros v Hv. unfold Ahttp.Request_ContentType. cbn. now rewrite Hv.
  - intros v Hv. unfold Ahttp.AcceptContentType. cbn. now rewrite Hv.
  - intros v Hv. unfold Ahttp.AcceptEncoding. cbn. now rewrite Hv.
  - intros v Hv. unfold Ahttp.Request_Locale. cbn. now rewrite Hv.
  - unfold Ahttp.AcceptEncoding. cbn.
    now destruct (Ahttp.ParseAcceptEncoding (Some raw)).
Qed.

(** X10: each negotiating getter is idempotent, a second call returns what
    the first returned and leaves the request as the first left it; and a
    value stored by the matching setter is what the getter returns, with no
    negotiation. *)
Theorem negotiated_getters (r : Ahttp.Request) :
  Ahttp.Request_ContentType (fst (Ahttp.Request_ContentType r))
  = Ahttp.Request_ContentType r
  /\ Ahttp.AcceptContentType (fst (Ahttp.AcceptContentType r))
     = Ahttp.AcceptContentType r
  /\ Ahttp.AcceptEncoding (fst (Ahttp.AcceptEncoding r))
     = Ahttp.AcceptEncoding r
  /\ Ahttp.Request_Locale (fst (Ahttp.Request_Locale r))
     = Ahttp.Request_Locale r
  /\ (forall v, Ahttp.Request_ContentType (Ahttp.SetContentType (Some v) r)
                = (Ahttp.SetContentType (Some v) r, Some v))
  /\ (forall v, Ahttp.AcceptContentType
                  (Ahttp.SetAcceptContentType (Some v) r)
                = (Ahttp.SetAcceptContentType (Some v) r, Some v))
  /\ (forall v, Ahttp.AcceptEncoding (Ahttp.SetAcceptEncoding (Some v) r)
                = (Ahttp.SetAcceptEncoding (Some v) r, Some v))
  /\ (forall v, Ahttp.Request_Locale (Ahttp.SetLocale (Some v) r)
                = (Ahttp.SetLocale (Some v) r, Some v)).
Proof using Type.
  repeat split.
  - unfold Ahttp.Request_ContentType.
    destruct (Ahttp.req_contentType r) as [v |] eqn:Hv; cbn.
    + now rewrite Hv.
    + unfold Ahttp.Unwrap. now destruct (Ahttp.ParseContentType _).
  - unfold Ahttp.AcceptContentType.
    destruct (Ahttp.req_acceptContentType r) as [v |] eqn:Hv; cbn.
    + now rewrite Hv.
    + unfold Ahttp.Unwrap. now destruct (Ahttp.NegotiateContentType _).
  - unfold Ahttp.AcceptEncoding.
    destruct (Ahttp.req_acceptEncoding r) as [v |] eqn:Hv; cbn.
    + now rewrite Hv.
    + unfold Ahttp.Unwrap.
      destruct (Ahttp.ParseAcceptEncoding _) as [specs |] eqn:Hs; cbn.
      * destruct (Ahttp.MostQualified specs) eqn:Hq; cbn; [reflexivity |].
        unfold Ahttp.Unwrap in *. cbn. now rewrite Hs, Hq.
      * unfold Ahttp.Unwrap in *. now rewrite Hv, Hs.
  - unfold Ahttp.Request_Locale.
    destruct (Ahttp.req_locale r) as [v |] eqn:Hv; cbn.
    + now rewrite Hv.
    + unfold Ahttp.Unwrap. now destruct (Ahttp.NegotiateLocale _).
Qed.

(** X11: a request filled by [ParseRequest] answers every parameter
    accessor, with the query of the URL as its only parameters: path and
    form values are empty and there is no uploaded file and no error; a
    request after [Reset] has no parameters, so the accessors that go
    through them panic, while the header tests still answer. *)
Theorem parsed_and_reset_requests (raw : Ahttp.RawRequest)
    (req : Ahttp.Request) (key : string) :
  let r := Ahttp.ParseRequest raw req in
  let z := Ahttp.Reset req in
  Ahttp.Unwrap r = Some raw
  /\ Ahttp.Request_QueryValue r key
     = Some (Ahttp.Values_Get (Ahttp.URL_Query (Ahttp.raw_URL raw)) key)
  /\ Ahttp.Request_PathValue r key = Some ""
  /\ Ahttp.Request_FormValue r key = Some ""
  /\ Ahttp.Request_FormArrayValue r key = Some []
  /\ Ahttp.Request_FormFile r key = Some (None, None, None)
  /\ z = Ahttp.zeroRequest
  /\ Ahttp.Reset (Ahttp.ParseRequest raw req) = z
  /\ Ahttp.Unwrap z = None
  /\ Ahttp.Request_QueryValue z key = None
  /\ Ahttp.Request_PathValue z key = None
  /\ Ahttp.Request_FormValue z key = None
  /\ Ahttp.Request_FormFile z key = None
  /\ Ahttp.IsJSONP z = None
  /\ Ahttp.IsAJAX z = false
  /\ Ahttp.IsWebSocket z = false.
Proof using Type.
  cbv zeta. unfold Ahttp.IsAJAX, Ahttp.IsWebSocket, Ahttp.Header_Get.
  cbn. rewrite !lookup_empty. repeat split.
Qed.

(** X12: for the path, query and form maps a [nil] map and an empty map
    give the same answers, and the single value of a key is the first
    element of its array value; for the file map they differ: with a [nil]
    map [FormFile] returns no file and no error, with an empty map, or a
    key holding no header, it returns the no-such-file error. *)
Theorem Params_nil_maps (path : option (gmap string string))
    (query form : option (gmap string (list string)))
    (file : option (gmap string (list Ahttp.FileHeader))) (key : string) :
  let p := Ahttp.mkParams path query form file in
  Ahttp.QueryValue p key = Ahttp.firstOrEmpty (Ahttp.QueryArrayValue p key)
  /\ Ahttp.FormValue p key = Ahttp.firstOrEmpty (Ahttp.FormArrayValue p key)
  /\ Ahttp.PathValue (Ahttp.mkParams None query form file) key
     = Ahttp.PathValue (Ahttp.mkParams (Some ∅) query form file) key
  /\ Ahttp.QueryArrayValue (Ahttp.mkParams path None form file) key
     = Ahttp.QueryArrayValue (Ahttp.mkParams path (Some ∅) form file) key
  /\ Ahttp.FormArrayValue (Ahttp.mkParams path query None file) key
     = Ahttp.FormArrayValue (Ahttp.mkParams path query (Some ∅) file) key
  /\ Ahttp.FormFile (Ahttp.mkParams path query form None) key
     = (None, None, None)
  /\ Ahttp.FormFile (Ahttp.mkParams path query form (Some ∅)) key
     = (None, None, Some (Ahttp.ErrNoSuchFile key))
  /\ (forall m, m !! key = Some [] ->
       Ahttp.FormFile (Ahttp.mkParams path query form (Some m)) key
       = (None, None, Some (Ahttp.ErrNoSuchFile key))).
Proof using Type.
  cbv zeta.
  unfold Ahttp.QueryValue, Ahttp.QueryArrayValue, Ahttp.FormValue,
    Ahttp.FormArrayValue, Ahttp.PathValue, Ahttp.FormFile, Ahttp.Values_Get.
  cbn. rewrite !lookup_empty.
  repeat split.
  - destruct query as [q |]; [| reflexivity]. now destruct (q !! key).
  - destruct form as [f |]; [| reflexivity]. now destruct (f !! key).
  - intros m Hm. now rewrite Hm.
Qed.

(** X13: [SaveFile] checks before it touches anything: a blank key or
    destination, a destination that is a directory, and a key without an
    uploaded file each end with their error, a size of zero and the file
    system as it was, the first of them even on a request without
    parameters; without parameters the later lookup panics; and when the
    file map is [nil] no error stops the call, which goes on to save from
    a [nil] reader. *)
Theorem SaveFile_guards (r : Ahttp.Request) (key dstFile : string)
    (fs : Ahttp.FS) :
  (Ahttp.IsStrEmpty dstFile = true \/ Ahttp.IsStrEmpty key = true ->
   Ahttp.SaveFile r key dstFile fs
   = Some (fs, (0, Some Ahttp.ErrKeyOrDstEmpty)))
  /\ (Ahttp.IsStrEmpty dstFile = false ->
      Ahttp.IsStrEmpty key = false ->
      (Ahttp.IsDir fs dstFile = true ->
       Ahttp.SaveFile r key dstFile fs
       = Some (fs, (0, Some Ahttp.ErrDstIsDir)))
      /\ (Ahttp.IsDir fs dstFile = false ->
          (Ahttp.req_Params r = None ->
           Ahttp.SaveFile r key dstFile fs = None)
          /\ (forall p, Ahttp.req_Params r = Some p ->
              (Ahttp.p_File p <> None ->
               Ahttp.filesUnder p key = [] ->
               Ahttp.SaveFile r key dstFile fs
               = Some (fs, (0, Some (Ahttp.ErrNoSuchFile key))))
              /\ (Ahttp.p_File p = None ->
                  Ahttp.SaveFile r key dstFile fs
                  = Some
                      (let '(fs1, res) :=
                         Ahttp.saveFile None dstFile fs in
                       (Ahttp.CloseQuietly_Upload None fs1, res)))))).
Proof using Type.
  unfold Ahttp.SaveFile, Ahttp.Request_FormFile. split.
  - intros [-> | ->]; [reflexivity | now rewrite orb_true_r].
  - intros -> ->. cbn [orb]. split; [now intros -> |].
    intros ->. split; [now intros -> |].
    intros p ->. unfold Ahttp.FormFile, Ahttp.filesUnder. split.
    + intros Hfile Hnone.
      destruct (Ahttp.p_File p) as [m |]; [| contradiction].
      destruct (m !! key) as [[| fh0 rest] |]; [| discriminate |];
        reflexivity.
    + intros ->. now destruct (Ahttp.saveFile None dstFile fs).
Qed.




End RequestFacts.

(** ** The further theorems at work on the stand-ins *)

(** With receiver, level and pattern all wrong, the level is reported. *)
Lemma New_error_precedence_witness :
  @New moreHost "receiver = SYSLOG; level = LOUD; pattern = %when"
    sampleWorld
  = (sampleWorld, (None, Some "unrecognized log level: LOUD")).
Proof.
  destruct (@New_error_precedence moreHost
              "receiver = SYSLOG; level = LOUD; pattern = %when"
              sampleWorld eq_refl) as [_ Hparsed].
  destruct (Hparsed allWrongConfig eq_refl) as [_ Hrecv].
  destruct (Hrecv "SYSLOG" eq_refl) as [Hlevel _].
  apply Hlevel. vm_compute. reflexivity.
Defined.

(** A console logger is built although [rotate.size] is 4096. *)
Lemma New_console_logger_witness :
  exists r,
    @New moreHost "receiver = console; rotate.size = 4096" sampleWorld
    = (sampleWorld, (Some r, None))
    /\ r_Type r = "CONSOLE" /\ r_out r = Some os_Stderr.
Proof.
  destruct (@New moreHost "receiver = console; rotate.size = 4096"
              sampleWorld) as [w1 [[r |] [e |]]] eqn:Hnew;
    try (vm_compute in Hnew; discriminate Hnew).
  destruct (@New_console_logger moreHost _ consoleBigSizeConfig "console"
              _ _ _ Hnew eq_refl eq_refl eq_refl)
    as (-> & Htype & Hout & _).
  exists r. repeat split; assumption.
Defined.

(** A size of [-1] is accepted and gives a negative threshold. *)
Lemma rotate_size_threshold_witness :
  exists r,
    fst (snd (@newFileReceiver sampleHost negativeSizeConfig "FILE"
                LevelDebug [] sampleWorld)) = Some r
    /\ r_maxSize r = -1048576.
Proof.
  destruct (@rotate_size_threshold sampleHost negativeSizeConfig "FILE"
              LevelDebug [] sampleWorld
              (fst (fst (sampleOpenFile
                           (@fileReceiverLiteral sampleHost
                              negativeSizeConfig "FILE" LevelDebug [])
                           sampleWorld)))
              (snd (fst (sampleOpenFile
                           (@fileReceiverLiteral sampleHost
                              negativeSizeConfig "FILE" LevelDebug [])
                           sampleWorld))))
    as [Hnew _];
    [reflexivity | vm_compute; split; discriminate | reflexivity |].
  eexists. rewrite Hnew. split; reflexivity.
Defined.

(** The mode [DAILY] is kept as written and no day is recorded. *)
Lemma rotate_mode_as_written_witness :
  exists r,
    fst (snd (@newFileReceiver sampleHost upperDailyConfig "FILE"
                LevelDebug [] sampleWorld)) = Some r
    /\ r_rotate r = "DAILY" /\ r_currentOpenDay r = 0.
Proof.
  destruct (@rotate_mode_as_written sampleHost upperDailyConfig "FILE"
              LevelDebug [] sampleWorld
              (fst (fst (sampleOpenFile
                           (@fileReceiverLiteral sampleHost
                              upperDailyConfig "FILE" LevelDebug [])
                           sampleWorld)))
              (snd (fst (sampleOpenFile
                           (@fileReceiverLiteral sampleHost
                              upperDailyConfig "FILE" LevelDebug [])
                           sampleWorld)))
              "DAILY")
    as [_ Hother];
    [vm_compute; discriminate | reflexivity | reflexivity |].
  eexists. rewrite Hother by discriminate. split; [reflexivity |].
  split; reflexivity.
Defined.

Lemma sampleEnv_TrimSpace :
  forall s, isASCII s = true -> @Ahttp.TrimSpace sampleEnv s = trimSpaceASCII s.
Proof. intros s _. reflexivity. Defined.

Lemma sampleEnv_IsStrEmpty :
  forall s, isASCII s = true -> @Ahttp.IsStrEmpty sampleEnv s = onlySpaces s.
Proof. intros s _. reflexivity. Defined.

(** The first forwarded address wins over X-Real-IP and the peer. *)
Lemma clientIP_forwarded_witness :
  @Ahttp.clientIP sampleEnv sampleRaw = "10.0.0.1".
Proof.
  destruct (@clientIP_forwarded sampleEnv sampleEnv_TrimSpace
              sampleEnv_IsStrEmpty sampleRaw eq_refl eq_refl)
    as [Hip _].
  rewrite Hip. vm_compute. reflexivity.
Defined.

(** Without the two headers the peer's host is the client address. *)
Lemma clientIP_remote_addr_witness :
  @Ahttp.clientIP sampleEnv directRaw = "127.0.0.1".
Proof.
  rewrite (@clientIP_remote_addr sampleEnv sampleEnv_IsStrEmpty directRaw)
    by reflexivity.
  vm_compute. reflexivity.
Defined.

